(** * The configuration wizard of django_models_from_csv

    A shallow embedding of [django_models_from_csv/views/configuration.py]:
    the four request handlers [begin], [refine_and_import],
    [refine_and_import_by_name] and [import_data], written in a small
    state-and-exception monad over the persistent store and a log of the
    calls made to the modules the handlers delegate to. *)

From stdpp Require Import gmap strings list fin_maps.
From Stdlib Require Import ZArith String Ascii.

Local Open Scope Z_scope.
Local Open Scope string_scope.

(** ** Python values *)

(** Truth value of [request.POST.get(k)], of a nullable text field or of a
    setting: [None] and the empty string are false. *)
Definition truthy (v : option string) : bool :=
  match v with
  | None => false
  | Some s => negb (String.eqb s "")
  end.

(** Truth value of a list ([if errors:]). *)
Definition truthy_list {A} (l : list A) : bool :=
  match l with
  | [] => false
  | _ :: _ => true
  end.

(** Truth value of an integer ([elif models_count:]). *)
Definition truthy_int (n : Z) : bool := negb (Z.eqb n 0).

(** Exceptions the handlers raise, catch or let through. *)
Inductive exn : Type :=
| Http404
| UniqueColumnError (message : string)
| UnboundLocalError (variable : string)
| NotImplementedError (message : string)
| TypeError
| ValueError
| KeyError (key : string)
| DoesNotExist
| MultipleObjectsReturned
| ExternalError (message : string).

(** *** [int(v)]

    [read] is the built-in [int] on text, [None] standing for
    [ValueError]: which characters it takes for digits and for white space
    is laid down in the interpreter's Unicode tables, so it is taken as
    given.  [int(None)] is a [TypeError]. *)
Definition int (read : string -> option Z) (v : option string) : exn + Z :=
  match v with
  | None => inl TypeError
  | Some s =>
      match read s with
      | Some z => inr z
      | None => inl ValueError
      end
  end.

(** [int(v) if v else None] *)
Definition int_or_None (read : string -> option Z) (v : option string)
    : exn + option Z :=
  if truthy v then
    match int read v with
    | inr z => inr (Some z)
    | inl e => inl e
    end
  else inr None.

(** ** Data model *)

Module models.

(** The column specification: column names with their types, in order. *)
Definition Columns : Type := list (string * string).

(** The schema descriptor. *)
Record DynamicModel : Type := mkDynamicModel {
  id : Z;
  name : string;
  columns : Columns;
  csv_url : option string;
  csv_google_refresh_token : option string;
  sd_api_key : option string;
  sd_project_id : option Z;
  sd_form_id : option Z
}.

(** [dynmodel.columns = columns] *)
Definition set_columns (cols : Columns) (d : DynamicModel) : DynamicModel :=
  {| id := id d; name := name d; columns := cols;
     csv_url := csv_url d;
     csv_google_refresh_token := csv_google_refresh_token d;
     sd_api_key := sd_api_key d;
     sd_project_id := sd_project_id d;
     sd_form_id := sd_form_id d |}.

End models.

Export models.

(** One record of a backing table, raw tabular text, and a row error. *)
Definition Row : Type := list string.
Definition CSV : Type := string.

Record ImportError : Type := mkImportError {
  error_row : Z;
  error_message : string
}.

(** The persistence layer: schema descriptors by primary key, and the rows
    of each descriptor's backing table. *)
Record Database : Type := mkDatabase {
  schemas : gmap Z DynamicModel;
  tables : gmap Z (list Row)
}.

(** ** Requests and responses *)

Record HttpRequest : Type := mkRequest {
  method : string;
  GET : gmap string string;
  POST : gmap string string;
  path : string;
  user_is_authenticated : bool
}.

(** What a [SchemaRefineForm] was built from. *)
Inductive FormData : Type :=
| InitialColumns (cols : Columns)
| Submitted (post : gmap string string).

(** A form object: its data and, once [is_valid()] has run, its field
    errors. *)
Record SchemaRefineForm : Type := mkForm {
  form_data : FormData;
  form_errors : option (list string)
}.

Inductive CtxValue : Type :=
| CStr (s : string)
| CInt (n : Z)
| CForm (f : SchemaRefineForm)
| CDynmodel (d : DynamicModel)
| CErrors (errs : list ImportError).

Inductive HttpResponse : Type :=
| TemplateResponse (template : string) (context : gmap string CtxValue)
| HttpResponseRedirect (to : string) (args : list Z)
| LoginRedirect (request : HttpRequest).

Definition render (request : HttpRequest) (template : string)
    (context : gmap string CtxValue) : HttpResponse :=
  TemplateResponse template context.

Definition redirect (to : string) (args : list Z) : HttpResponse :=
  HttpResponseRedirect to args.

(** ** Calls to the other modules *)

Inductive Event : Type :=
| EvFromPrivateSheet (name csv_url auth_code : option string)
| EvFromCsvUrl (name csv_url auth_code : option string)
| EvFromScreendoor (name api_key : option string) (project_id : Z)
    (form_id : option Z)
| EvSave (d : DynamicModel)
| EvGetAccessData (client_id client_secret refresh_token : option string)
| EvGetCsvFromUrl (token : string) (url : option string)
| EvFetchCsv (url : option string)
| EvBuildCsv (api_key : option string) (project_id form_id : option Z)
| EvImportRecords (csv : CSV) (model : Z)
| EvLogError (errs : list ImportError).

(** The modules the handlers call and whose code is outside this file:
    settings, the refine form, the three factories, the fetchers and the
    importer, and the interpreter's reading of numbers.  A call that fails
    returns the exception it raises. *)
Record Collaborators : Type := mkCollaborators {
  (** [utils.common.get_setting] *)
  get_setting : string -> option string;
  (** [forms.SchemaRefineForm]: field errors and [cleaned_data["columns"]]
      of a submission *)
  full_clean : gmap string string -> list string * option Columns;
  (** [utils.dynmodel]: each factory creates and persists a descriptor *)
  from_private_sheet :
    option string -> option string -> option string ->
    Database -> Database * (exn + DynamicModel);
  from_csv_url :
    option string -> option string -> option string ->
    Database -> Database * (exn + DynamicModel);
  from_screendoor :
    option string -> option string -> Z -> option Z ->
    Database -> Database * (exn + DynamicModel);
  (** [utils.google_sheets.GoogleOAuth(id, secret).get_access_data] *)
  get_access_data :
    option string -> option string -> option string ->
    exn + gmap string string;
  (** [utils.google_sheets.PrivateSheetImporter(token).get_csv_from_url] *)
  get_csv_from_url : string -> option string -> exn + CSV;
  (** [utils.csv.fetch_csv] *)
  fetch_csv : option string -> exn + CSV;
  (** [utils.screendoor.ScreendoorImporter(api_key).build_csv] *)
  build_csv : option string -> option Z -> option Z -> exn + CSV;
  (** [utils.importing.import_records]: writes into the rows of the
      model's backing table and returns the per-row errors *)
  import_records :
    CSV -> DynamicModel -> list Row -> list Row * (exn + list ImportError);
  (** the records the importer reads out of the text *)
  csv_records : CSV -> list Row;
  (** [str(dynmodel)] *)
  str_dynmodel : DynamicModel -> string;
  (** the built-in [int] on text, [None] standing for [ValueError] *)
  int_of_text : string -> option Z
}.

(** ** The handlers' monad: the store, the call log, and exceptions *)

Record World : Type := mkWorld {
  db : Database;
  trace : list Event
}.

Definition M (A : Type) : Type := World -> World * (exn + A).

Definition ret {A} (a : A) : M A := fun w => (w, inr a).

Definition raise {A} (e : exn) : M A := fun w => (w, inl e).

Definition bind {A B} (m : M A) (k : A -> M B) : M B :=
  fun w =>
    match m w with
    | (w', inr a) => k a w'
    | (w', inl e) => (w', inl e)
    end.

Notation "x <~ m ;; k" := (bind m (fun x => k))
  (at level 100, m at next level, right associativity).
Notation "m ;;; k" := (bind m (fun _ => k))
  (at level 100, right associativity).

(** Record a call in the log. *)
Definition emit (e : Event) : M unit :=
  fun w => ({| db := db w; trace := trace w ++ [e] |}, inr tt).

(** A call that neither reads nor writes the store. *)
Definition call {A} (e : Event) (r : exn + A) : M A :=
  emit e ;;; fun w => (w, r).

(** A call that works on the store. *)
Definition call_db {A} (e : Event) (f : Database -> Database * (exn + A))
    : M A :=
  emit e ;;;
  fun w =>
    let '(d, r) := f (db w) in
    ({| db := d; trace := trace w |}, r).

(** ** The object-relational layer *)

(** [get_object_or_404(models.DynamicModel, id=id)] *)
Definition get_object_or_404 (id : Z) : M DynamicModel :=
  fun w =>
    match schemas (db w) !! id with
    | Some d => (w, inr d)
    | None => (w, inl Http404)
    end.

(** [models.DynamicModel.objects.count()] *)
Definition objects_count : M Z :=
  fun w => (w, inr (Z.of_nat (size (schemas (db w))))).

(** The rows of a model's backing table. *)
Definition table_rows (d : Database) (model : Z) : list Row :=
  default [] (tables d !! model).

(** Modelled from the spec: [DynamicModel.save] of models.py, which is not
    among the sources.  The descriptor is written under its primary key
    and its backing table exists afterwards; the rows stay. *)
Definition save (d : DynamicModel) : M unit :=
  call_db (EvSave d) (fun s =>
    ({| schemas := <[models.id d := d]> (schemas s);
        tables := <[models.id d := table_rows s (models.id d)]> (tables s) |},
     inr tt)).

(** [dynmodel.refresh_from_db()] *)
Definition refresh_from_db (d : DynamicModel) : M DynamicModel :=
  fun w =>
    match schemas (db w) !! models.id d with
    | Some d' => (w, inr d')
    | None => (w, inl DoesNotExist)
    end.

(** [dynmodel.get_model()]: the handle of the backing table. *)
Definition get_model (d : DynamicModel) : Z := models.id d.

(** [Model.objects.count()] *)
Definition Model_objects_count (model : Z) : M Z :=
  fun w => (w, inr (Z.of_nat (List.length (table_rows (db w) model)))).

(** Modelled from the spec: the manager method
    [models.DynamicModel.objects.get_or_404(name=name)] of models.py, which
    is not among the sources.  It resolves a schema identity by its
    human-readable name; a name that resolves to nothing is "not found". *)
Definition objects_get_or_404 (name : string) : M Z :=
  fun w =>
    match filter (fun kd => models.name kd.2 = name)
                 (map_to_list (schemas (db w))) with
    | [] => (w, inl Http404)
    | [kd] => (w, inr kd.1)
    | _ :: _ :: _ => (w, inl MultipleObjectsReturned)
    end.

(** [@login_required]: a request without an authenticated user is sent to
    the login page and the handler does not run.  [LoginRedirect request]
    is the redirect Django builds from the request, whose [next] parameter
    is the request's full path, query string included. *)
Definition login_required (view : HttpRequest -> M (option HttpResponse))
    (request : HttpRequest) : M (option HttpResponse) :=
  if user_is_authenticated request then view request
  else ret (Some (LoginRedirect request)).

(** [try: body / except UniqueColumnError as e: return handler(str(e))],
    followed by the rest of the function.  The exception is modelled by
    its text, so [str(e)] is the constructor's argument. *)
Definition try_except_UniqueColumnError {A B} (body : M A)
    (handler : string -> M B) (rest : A -> M B) : M B :=
  fun w =>
    match body w with
    | (w', inr a) => rest a w'
    | (w', inl (UniqueColumnError e)) => handler e w'
    | (w', inl e) => (w', inl e)
    end.

(** An exception raised while an argument is evaluated. *)
Definition lift {A} (r : exn + A) : M A := fun w => (w, r).

(** [d[k]] on a dict *)
Definition getitem (d : gmap string string) (k : string) : M string :=
  match d !! k with
  | Some v => ret v
  | None => raise (KeyError k)
  end.

(** ** The views *)

Section Views.

Variable c : Collaborators.

(** [import_records(csv, Model, dynmodel)] on the rows of [Model]. *)
Definition call_import_records (csv : CSV) (Model : Z)
    (dynmodel : DynamicModel) : M (list ImportError) :=
  call_db (EvImportRecords csv Model) (fun s =>
    let '(rows, r) := import_records c csv dynmodel (table_rows s Model) in
    ({| schemas := schemas s; tables := <[Model := rows]> (tables s) |}, r)).

(** [SchemaRefineForm(request.POST)] with its validation run, as
    [is_valid()] leaves it. *)
Definition SchemaRefineForm_bound (post : gmap string string)
    : SchemaRefineForm :=
  {| form_data := Submitted post;
     form_errors := Some (full_clean c post).1 |}.

(** [refine_form.is_valid()]: validated, and no field error. *)
Definition is_valid (f : SchemaRefineForm) : bool :=
  match form_errors f with
  | Some errs => negb (truthy_list errs)
  | None => false
  end.

(** [refine_form.cleaned_data[k]] *)
Definition cleaned_data (f : SchemaRefineForm) (k : string) : M Columns :=
  match form_data f with
  | Submitted post =>
      match (full_clean c post).2 with
      | Some cols => if String.eqb k "columns" then ret cols
                     else raise (KeyError k)
      | None => raise (KeyError k)
      end
  | InitialColumns _ => raise (KeyError k)
  end.

(** Lines 113-134 of [refine_and_import]: the fetch of the source's data,
    chosen by the fields of the descriptor that are populated. *)
Definition fetch_source_data (dynmodel : DynamicModel) : M CSV :=
  if truthy (csv_url dynmodel)
     && truthy (csv_google_refresh_token dynmodel) then
    let client_id := get_setting c "GOOGLE_CLIENT_ID" in
    let client_secret := get_setting c "GOOGLE_CLIENT_SECRET" in
    access_data <~ call
      (EvGetAccessData client_id client_secret
         (csv_google_refresh_token dynmodel))
      (get_access_data c client_id client_secret
         (csv_google_refresh_token dynmodel)) ;;
    token <~ getitem access_data "access_token" ;;
    call (EvGetCsvFromUrl token (csv_url dynmodel))
         (get_csv_from_url c token (csv_url dynmodel))
  else if truthy (csv_url dynmodel) then
    call (EvFetchCsv (csv_url dynmodel)) (fetch_csv c (csv_url dynmodel))
  else if truthy (sd_api_key dynmodel) then
    call (EvBuildCsv (sd_api_key dynmodel)
            (sd_project_id dynmodel) (sd_form_id dynmodel))
         (build_csv c (sd_api_key dynmodel)
            (sd_project_id dynmodel) (sd_form_id dynmodel))
  else
    raise (NotImplementedError
             ("Invalid data source for " ++ str_dynmodel c dynmodel)).

(** [begin(request)], lines 25-75.  The local [dynmodel] is bound only by
    the branches of the [try] block: [None] is the unbound variable. *)
Definition begin : HttpRequest -> M (option HttpResponse) :=
  login_required (fun request =>
    if String.eqb (method request) "GET" then
      let addnew := GET request !! "addnew" in
      models_count <~ objects_count ;;
      if truthy addnew then
        ret (Some (render request "begin.html" ∅))
      else if truthy_int models_count then
        ret (Some (redirect "/admin/" []))
      else
        ret (Some (render request "begin.html" ∅))
    else if String.eqb (method request) "POST" then
      let csv_url := POST request !! "csv_url" in
      let csv_google_sheets_auth_code :=
        POST request !! "csv_google_sheets_auth_code" in
      let sd_api_key := POST request !! "sd_api_key" in
      let sd_project_id := POST request !! "sd_project_id" in
      let sd_form_id := POST request !! "sd_form_id" in
      try_except_UniqueColumnError
        (if truthy csv_url && truthy csv_google_sheets_auth_code then
           let name := POST request !! "csv_name" in
           dynmodel <~ call_db
             (EvFromPrivateSheet name csv_url csv_google_sheets_auth_code)
             (from_private_sheet c name csv_url csv_google_sheets_auth_code) ;;
           ret (Some dynmodel)
         else if truthy csv_url then
           let name := POST request !! "csv_name" in
           dynmodel <~ call_db
             (EvFromCsvUrl name csv_url csv_google_sheets_auth_code)
             (from_csv_url c name csv_url csv_google_sheets_auth_code) ;;
           ret (Some dynmodel)
         else if truthy sd_api_key then
           let name := POST request !! "sd_name" in
           project_id <~ lift (int (int_of_text c) sd_project_id) ;;
           form_id <~ lift (int_or_None (int_of_text c) sd_form_id) ;;
           dynmodel <~ call_db
             (EvFromScreendoor name sd_api_key project_id form_id)
             (from_screendoor c name sd_api_key project_id form_id) ;;
           ret (Some dynmodel)
         else ret None)
        (fun e =>
           ret (Some (render request "begin.html" {[ "errors" := CStr e ]})))
        (fun dynmodel =>
           match dynmodel with
           | Some d =>
               ret (Some (redirect "csv_models:refine-and-import"
                            [models.id d]))
           | None => raise (UnboundLocalError "dynmodel")
           end)
    else ret None).

(** [refine_and_import(request, id)], lines 78-154; the fetch of lines
    113-134 is [fetch_source_data]. *)
Definition refine_and_import (request : HttpRequest) (id : Z)
    : M (option HttpResponse) :=
  login_required (fun request =>
    dynmodel <~ get_object_or_404 id ;;
    if String.eqb (method request) "GET" then
      let refine_form :=
        {| form_data := InitialColumns (columns dynmodel);
           form_errors := None |} in
      ret (Some (render request "refine-and-import.html"
                   {[ "form" := CForm refine_form;
                      "dynmodel" := CDynmodel dynmodel ]}))
    else if String.eqb (method request) "POST" then
      let refine_form := SchemaRefineForm_bound (POST request) in
      if negb (is_valid refine_form) then
        ret (Some (render request "refine-and-import.html"
                     {[ "form" := CForm refine_form;
                        "dynmodel" := CDynmodel dynmodel ]}))
      else
        columns <~ cleaned_data refine_form "columns" ;;
        let dynmodel := set_columns columns dynmodel in
        save dynmodel ;;;
        dynmodel <~ refresh_from_db dynmodel ;;
        csv <~ fetch_source_data dynmodel ;;
        let Model := get_model dynmodel in
        errors <~ call_import_records csv Model dynmodel ;;
        emit (EvLogError errors) ;;;
        if truthy_list errors then
          ret (Some (render request "refine-and-import.html"
                       {[ "form" := CForm refine_form;
                          "dynmodel" := CDynmodel dynmodel;
                          "errors" := CErrors errors ]}))
        else
          let next := get_setting c "CSV_MODELS_WIZARD_REDIRECT_TO" in
          if truthy next then
            ret (Some (redirect (default "" next) []))
          else
            n_records <~ Model_objects_count Model ;;
            ret (Some (render request "import-complete.html"
                         {[ "dynmodel" := CDynmodel dynmodel;
                            "n_records" := CInt n_records ]}))
    else ret None) request.

(** [refine_and_import_by_name(request, name)], lines 157-160. *)
Definition refine_and_import_by_name (request : HttpRequest) (name : string)
    : M (option HttpResponse) :=
  login_required (fun request =>
    id <~ objects_get_or_404 name ;;
    refine_and_import request id) request.

(** [import_data(request, id)], lines 163-178.  The POST branch binds
    [Model] and ends: the function returns [None]. *)
Definition import_data (request : HttpRequest) (id : Z)
    : M (option HttpResponse) :=
  login_required (fun request =>
    dynmodel <~ get_object_or_404 id ;;
    if String.eqb (method request) "GET" then
      ret (Some (render request "import-data.html"
                   {[ "dynmodel" := CDynmodel dynmodel ]}))
    else if String.eqb (method request) "POST" then
      let Model := get_model dynmodel in
      ret None
    else ret None) request.

End Views.

(** ** The factories and the importer, from their descriptions *)

(** The source a descriptor draws on: a CSV URL, a private sheet with the
    refresh token kept for it, or a form of the form service. *)
Inductive Source : Type :=
| CsvDirect (url : option string)
| CsvSheet (url : option string) (refresh_token : string)
| FormService (api_key : option string) (project_id : Z)
    (form_id : option Z).

(** What the factories obtain from outside: the refresh token an auth code
    is exchanged for, and the columns inferred from a source, with the
    exceptions these steps raise (the non-unique-column error among
    them). *)
Record Inference : Type := mkInference {
  exchange_auth_code : option string -> exn + string;
  infer_columns : Source -> exn + Columns
}.

(** A primary key no descriptor of the store has. *)
Definition next_pk (m : gmap Z DynamicModel) : Z :=
  1 + foldr Z.max 0 (map_to_list m).*1.

Module dynmodel.

(** Modelled from the spec: the dynamic-model factory of utils/dynmodel.py,
    which is not among the sources.  Given a name and a source descriptor
    it infers the columns and creates a persisted schema descriptor, whose
    source fields are those of that source and no others, plus an empty
    backing table; when the inference fails nothing is persisted. *)
Definition create (i : Inference) (name : option string) (source : Source)
    (d : Database) : Database * (exn + DynamicModel) :=
  match infer_columns i source with
  | inl e => (d, inl e)
  | inr cols =>
      let pk := next_pk (schemas d) in
      let dm :=
        match source with
        | CsvDirect url =>
            {| id := pk; name := default "" name; columns := cols;
               csv_url := url; csv_google_refresh_token := None;
               sd_api_key := None; sd_project_id := None;
               sd_form_id := None |}
        | CsvSheet url token =>
            {| id := pk; name := default "" name; columns := cols;
               csv_url := url; csv_google_refresh_token := Some token;
               sd_api_key := None; sd_project_id := None;
               sd_form_id := None |}
        | FormService key project_id form_id =>
            {| id := pk; name := default "" name; columns := cols;
               csv_url := None; csv_google_refresh_token := None;
               sd_api_key := key; sd_project_id := Some project_id;
               sd_form_id := form_id |}
        end in
      ({| schemas := <[pk := dm]> (schemas d);
          tables := <[pk := []]> (tables d) |}, inr dm)
  end.

(** Modelled from the spec: [from_private_sheet] of utils/dynmodel.py.  The
    auth code is exchanged for the refresh token the descriptor keeps. *)
Definition from_private_sheet (i : Inference)
    (name csv_url auth_code : option string) (d : Database)
    : Database * (exn + DynamicModel) :=
  match exchange_auth_code i auth_code with
  | inl e => (d, inl e)
  | inr token => create i name (CsvSheet csv_url token) d
  end.

(** Modelled from the spec: [from_csv_url] of utils/dynmodel.py. *)
Definition from_csv_url (i : Inference)
    (name csv_url auth_code : option string) (d : Database)
    : Database * (exn + DynamicModel) :=
  create i name (CsvDirect csv_url) d.

(** Modelled from the spec: [from_screendoor] of utils/dynmodel.py. *)
Definition from_screendoor (i : Inference) (name api_key : option string)
    (project_id : Z) (form_id : option Z) (d : Database)
    : Database * (exn + DynamicModel) :=
  create i name (FormService api_key project_id form_id) d.

End dynmodel.

Module importing.

(** The records written and the row errors, [n] being the number of the
    first record. *)
Fixpoint import_rows (check : Row -> option string) (n : Z)
    (records : list Row) : list Row * list ImportError :=
  match records with
  | [] => ([], [])
  | r :: rest =>
      let '(written, errors) := import_rows check (n + 1) rest in
      match check r with
      | None => (r :: written, errors)
      | Some message => (written, mkImportError n message :: errors)
      end
  end.

(** Modelled from the spec: [import_records] of utils/importing.py, which
    is not among the sources.  Given the records of the text and the
    target schema it inserts rows into the backing table, one per record,
    and collects a per-row error for each record that fails validation
    instead of inserting it. *)
Definition import_records (parse : CSV -> list Row)
    (check : DynamicModel -> Row -> option string)
    (csv : CSV) (dynmodel : DynamicModel) (rows : list Row)
    : list Row * (exn + list ImportError) :=
  let '(written, errors) := import_rows (check dynmodel) 1 (parse csv) in
  ((rows ++ written)%list, inr errors).

End importing.

(** Collaborators whose factories, or whose importer, are the modelled
    ones. *)
Definition with_factories (i : Inference) (c : Collaborators)
    : Collaborators :=
  {| get_setting := get_setting c;
     full_clean := full_clean c;
     from_private_sheet := dynmodel.from_private_sheet i;
     from_csv_url := dynmodel.from_csv_url i;
     from_screendoor := dynmodel.from_screendoor i;
     get_access_data := get_access_data c;
     get_csv_from_url := get_csv_from_url c;
     fetch_csv := fetch_csv c;
     build_csv := build_csv c;
     import_records := import_records c;
     csv_records := csv_records c;
     str_dynmodel := str_dynmodel c;
     int_of_text := int_of_text c |}.

Definition with_importer (check : DynamicModel -> Row -> option string)
    (c : Collaborators) : Collaborators :=
  {| get_setting := get_setting c;
     full_clean := full_clean c;
     from_private_sheet := from_private_sheet c;
     from_csv_url := from_csv_url c;
     from_screendoor := from_screendoor c;
     get_access_data := get_access_data c;
     get_csv_from_url := get_csv_from_url c;
     fetch_csv := fetch_csv c;
     build_csv := build_csv c;
     import_records := importing.import_records (csv_records c) check;
     csv_records := csv_records c;
     str_dynmodel := str_dynmodel c;
     int_of_text := int_of_text c |}.

(** ** An instance of the collaborators

    A closed world to run the handlers in: three documents on a fixed web,
    factories that read the header line, an importer that accepts the
    records as wide as the column specification. *)

Module demo.

Fixpoint split_on (sep : ascii) (s : string) : list string :=
  match s with
  | EmptyString => [EmptyString]
  | String a s' =>
      if Ascii.eqb a sep then EmptyString :: split_on sep s'
      else match split_on sep s' with
           | [] => [String a EmptyString]
           | w :: ws => String a w :: ws
           end
  end.

(** A reader of unsigned decimal numbers written in ASCII digits. *)
Fixpoint decimal_digits (acc : Z) (s : string) : option Z :=
  match s with
  | EmptyString => Some acc
  | String a s' =>
      let n := nat_of_ascii a in
      if ((48 <=? n) && (n <=? 57))%nat
      then decimal_digits (10 * acc + (Z.of_nat n - 48)) s'
      else None
  end.

Definition decimal (s : string) : option Z :=
  match s with
  | EmptyString => None
  | _ => decimal_digits 0 s
  end.

Definition parse (csv : CSV) : list Row :=
  split_on ","%char <$> split_on "010"%char csv.

Definition records (csv : CSV) : list Row := tail (parse csv).

Definition newline : string := String "010"%char EmptyString.

Definition people : CSV := "name,age" ++ newline ++ "Ada,36" ++ newline ++ "Alan,41".
Definition twice : CSV := "name,name" ++ newline ++ "Ada,Ada".
Definition ragged : CSV := "name,age" ++ newline ++ "Ada,36" ++ newline ++ "Alan".
Definition answers : CSV := "id,answer" ++ newline ++ "1,yes".

Definition web (url : option string) : exn + CSV :=
  match url with
  | Some u =>
      if String.eqb u "http://example.org/people.csv" then inr people
      else if String.eqb u "http://example.org/twice.csv" then inr twice
      else if String.eqb u "http://example.org/ragged.csv" then inr ragged
      else inl (ExternalError "404")
  | None => inl TypeError
  end.

Definition create (name url token key : option string) (pid fid : option Z)
    (csv : CSV) (d : Database) : Database * (exn + DynamicModel) :=
  let header := hd [] (parse csv) in
  if bool_decide (NoDup header) then
    let pk := Z.of_nat (size (schemas d)) + 1 in
    let dm := {| id := pk; name := default "" name;
                 columns := (fun h => (h, "text")) <$> header;
                 csv_url := url; csv_google_refresh_token := token;
                 sd_api_key := key; sd_project_id := pid;
                 sd_form_id := fid |} in
    ({| schemas := <[pk := dm]> (schemas d);
        tables := <[pk := []]> (tables d) |}, inr dm)
  else (d, inl (UniqueColumnError "Column names must be unique")).

Definition private_sheet (name url code : option string) (d : Database)
    : Database * (exn + DynamicModel) :=
  match web url with
  | inr csv => create name url (Some ("refresh-" ++ default "" code))
                 None None None csv d
  | inl e => (d, inl e)
  end.

Definition csv_url_factory (name url code : option string) (d : Database)
    : Database * (exn + DynamicModel) :=
  match web url with
  | inr csv => create name url None None None None csv d
  | inl e => (d, inl e)
  end.

Definition screendoor (name key : option string) (pid : Z) (fid : option Z)
    (d : Database) : Database * (exn + DynamicModel) :=
  create name None None key (Some pid) fid answers d.

Definition access (client secret refresh : option string)
    : exn + gmap string string :=
  if truthy refresh
  then inr {[ "access_token" := "access-" ++ default "" refresh ]}
  else inl (ExternalError "invalid_grant").

Fixpoint accepted (width : nat) (rs : list Row) : list Row :=
  match rs with
  | [] => []
  | r :: rs' =>
      if Nat.eqb (List.length r) width then r :: accepted width rs'
      else accepted width rs'
  end.

Fixpoint rejected (n : Z) (width : nat) (rs : list Row)
    : list ImportError :=
  match rs with
  | [] => []
  | r :: rs' =>
      if Nat.eqb (List.length r) width then rejected (n + 1) width rs'
      else mkImportError n "wrong number of fields"
             :: rejected (n + 1) width rs'
  end.

Definition importer (csv : CSV) (dm : DynamicModel) (rows : list Row)
    : list Row * (exn + list ImportError) :=
  let width := List.length (columns dm) in
  ((rows ++ accepted width (records csv))%list,
   inr (rejected 1 width (records csv))).

Definition clean (post : gmap string string)
    : list string * option Columns :=
  if truthy (post !! "columns") then
    let names := split_on ","%char (default "" (post !! "columns")) in
    if bool_decide (NoDup names)
    then ([], Some ((fun h => (h, "text")) <$> names))
    else (["Column names must be unique."], None)
  else (["This field is required."], None).

Definition collaborators (settings : gmap string string) : Collaborators :=
  {| get_setting := fun k => settings !! k;
     full_clean := clean;
     from_private_sheet := private_sheet;
     from_csv_url := csv_url_factory;
     from_screendoor := screendoor;
     get_access_data := access;
     get_csv_from_url := fun _ url => web url;
     fetch_csv := web;
     build_csv := fun _ _ _ => inr answers;
     import_records := importer;
     csv_records := records;
     str_dynmodel := models.name;
     int_of_text := decimal |}.

Definition empty_world : World :=
  {| db := {| schemas := ∅; tables := ∅ |}; trace := [] |}.

Definition post (fields : gmap string string) : HttpRequest :=
  {| method := "POST"; GET := ∅; POST := fields; path := "/";
     user_is_authenticated := true |}.

Definition get (query : gmap string string) : HttpRequest :=
  {| method := "GET"; GET := query; POST := ∅; path := "/";
     user_is_authenticated := true |}.

(** The collaborators without and with a post-import redirect target. *)
Definition plain : Collaborators := collaborators ∅.

Definition redirecting : Collaborators :=
  collaborators {[ "CSV_MODELS_WIZARD_REDIRECT_TO" := "/admin/" ]}.

(** Submissions of the intake form. *)
Definition people_form : gmap string string :=
  {[ "csv_url" := "http://example.org/people.csv"; "csv_name" := "people" ]}.


Definition ragged_form : gmap string string :=
  {[ "csv_url" := "http://example.org/ragged.csv"; "csv_name" := "ragged" ]}.

Definition sheet_form : gmap string string :=
  {[ "csv_url" := "http://example.org/people.csv"; "csv_name" := "sheet";
     "csv_google_sheets_auth_code" := "4/code" ]}.

Definition screendoor_form : gmap string string :=
  {[ "sd_api_key" := "key"; "sd_name" := "answers";
     "sd_project_id" := "12"; "sd_form_id" := "" ]}.

(** The world after each of these has been posted to [begin] on the empty
    store: one descriptor, with primary key 1. *)
Definition after_begin (fields : gmap string string) : World :=
  (begin plain (post fields) empty_world).1.

(** The descriptor that world holds. *)
Definition descriptor (fields : gmap string string) : DynamicModel :=
  {| id := 1; name := default "" (fields !! "csv_name");
     columns := [("name", "text"); ("age", "text")];
     csv_url := fields !! "csv_url";
     csv_google_refresh_token :=
       (fun code => "refresh-" ++ code)
         <$> fields !! "csv_google_sheets_auth_code";
     sd_api_key := None; sd_project_id := None; sd_form_id := None |}.

(** The descriptor the form-service submission creates. *)
Definition answers_descriptor : DynamicModel :=
  {| id := 1; name := "answers";
     columns := [("id", "text"); ("answer", "text")];
     csv_url := None; csv_google_refresh_token := None;
     sd_api_key := Some "key"; sd_project_id := Some 12;
     sd_form_id := None |}.

(** A submission of the refine form, and one it rejects. *)
Definition columns_form : gmap string string :=
  {[ "columns" := "name,age" ]}.

Definition repeated_columns_form : gmap string string :=
  {[ "columns" := "name,name" ]}.

Definition name_age : Columns := [("name", "text"); ("age", "text")].

(** A descriptor with no source field populated, and a store holding it. *)
Definition sourceless : DynamicModel :=
  {| id := 1; name := "sourceless"; columns := [("name", "text")];
     csv_url := None; csv_google_refresh_token := None;
     sd_api_key := Some ""; sd_project_id := None; sd_form_id := None |}.

Definition sourceless_world : World :=
  {| db := {| schemas := {[ 1 := sourceless ]}; tables := {[ 1 := [] ]} |};
     trace := [] |}.

(** The example's check of a record, its collaborators with the modelled
    importer, and the world after one import of the people document. *)
Definition width_check (dm : DynamicModel) (r : Row) : option string :=
  if Nat.eqb (List.length r) (List.length (columns dm)) then None
  else Some "wrong number of fields".

Definition importing : Collaborators := with_importer width_check plain.


(** The example's inference, and its collaborators with the modelled
    factories. *)
Definition header_columns (csv : CSV) : exn + Columns :=
  let header := hd [] (parse csv) in
  if bool_decide (NoDup header)
  then inr ((fun h => (h, "text")) <$> header)
  else inl (UniqueColumnError "Column names must be unique").

Definition inference : Inference :=
  {| exchange_auth_code :=
       fun code => if truthy code then inr ("refresh-" ++ default "" code)
                   else inl (ExternalError "invalid_grant");
     infer_columns :=
       fun source =>
         match source with
         | CsvDirect url | CsvSheet url _ =>
             match web url with
             | inr csv => header_columns csv
             | inl e => inl e
             end
         | FormService _ _ _ => header_columns answers
         end |}.

Definition making : Collaborators := with_factories inference plain.

End demo.

(** ** Vocabulary of the statements *)

(** The factory a POST to [begin] designates, with the call it is made
    by: the three combinations of source fields, the private sheet first. *)
(** The form id a submission carries: none when the field is absent or
    empty, otherwise the number its text reads as. *)
Inductive reads_form_id (c : Collaborators)
    : option string -> option Z -> Prop :=
| reads_no_form_id v : truthy v = false -> reads_form_id c v None
| reads_a_form_id s z :
    s <> "" -> int_of_text c s = Some z ->
    reads_form_id c (Some s) (Some z).

Inductive designates (c : Collaborators) (request : HttpRequest)
    : Event -> (Database -> Database * (exn + DynamicModel)) -> Prop :=
| designates_private_sheet url code :
    url = POST request !! "csv_url" ->
    code = POST request !! "csv_google_sheets_auth_code" ->
    truthy url = true -> truthy code = true ->
    designates c request
      (EvFromPrivateSheet (POST request !! "csv_name") url code)
      (from_private_sheet c (POST request !! "csv_name") url code)
| designates_csv_url url code :
    url = POST request !! "csv_url" ->
    code = POST request !! "csv_google_sheets_auth_code" ->
    truthy url = true -> truthy code = false ->
    designates c request
      (EvFromCsvUrl (POST request !! "csv_name") url code)
      (from_csv_url c (POST request !! "csv_name") url code)
| designates_screendoor key project_text project_id form_id :
    key = POST request !! "sd_api_key" ->
    truthy (POST request !! "csv_url") = false -> truthy key = true ->
    POST request !! "sd_project_id" = Some project_text ->
    int_of_text c project_text = Some project_id ->
    reads_form_id c (POST request !! "sd_form_id") form_id ->
    designates c request
      (EvFromScreendoor (POST request !! "sd_name") key project_id form_id)
      (from_screendoor c (POST request !! "sd_name") key project_id form_id).

(** The calls of a log that fetch source data. *)
Definition is_fetch (e : Event) : bool :=
  match e with
  | EvGetAccessData _ _ _ | EvGetCsvFromUrl _ _ | EvFetchCsv _
  | EvBuildCsv _ _ _ => true
  | _ => false
  end.

Definition fetches (t : list Event) : list Event := List.filter is_fetch t.

(** The result of a fetch is handed on by a run of a handler: an exception
    is the run's outcome, data is what the importer was called with. *)
Definition handed_on (r : exn + CSV) (model : Z)
    (out : World * (exn + option HttpResponse)) : Prop :=
  match r with
  | inl e => out.2 = inl e
  | inr csv => EvImportRecords csv model ∈ trace out.1
  end.

(** The world [dynmodel.save()] leaves. *)
Definition saved (d : DynamicModel) (w : World) : World := (save d w).1.

(** ** Further vocabulary and example inputs *)


Definition is_save (e : Event) : bool :=
  match e with
  | EvSave _ => true
  | _ => false
  end.

Definition saves (t : list Event) : list Event := List.filter is_save t.

Definition is_import (e : Event) : bool :=
  match e with
  | EvImportRecords _ _ => true
  | _ => false
  end.

(** A run of [begin] has created [dm] and only [dm]: one factory call
    [ev], the store of [w] with [dm] added under a key it did not have and
    an empty backing table for it, so one descriptor more, and the
    redirect to the refine-and-import step with that key. *)
Definition creates_exactly (w : World) (ev : Event) (dm : DynamicModel)
    (out : World * (exn + option HttpResponse)) : Prop :=
  out =
    ({| db := {| schemas := <[models.id dm := dm]> (schemas (db w));
                 tables := <[models.id dm := []]> (tables (db w)) |};
        trace := trace w ++ [ev] |},
     inr (Some (HttpResponseRedirect "csv_models:refine-and-import"
                  [models.id dm]))) /\
  schemas (db w) !! models.id dm = None /\
  size (schemas (db out.1)) = S (size (schemas (db w))).

Module cases.

(** The same request without a logged-in user. *)
Definition anonymous (r : HttpRequest) : HttpRequest :=
  {| method := method r; GET := GET r; POST := POST r;
     path := "/wizard/"; user_is_authenticated := false |}.

(** A logged-in request with another method. *)
Definition with_method (m : string) : HttpRequest :=
  {| method := m; GET := ∅; POST := ∅; path := "/";
     user_is_authenticated := true |}.

(** A descriptor whose document has left the web, and a store holding it
    with one row imported earlier. *)
Definition gone : DynamicModel :=
  {| id := 1; name := "gone"; columns := [("name", "text")];
     csv_url := Some "http://example.org/gone.csv";
     csv_google_refresh_token := None;
     sd_api_key := None; sd_project_id := None; sd_form_id := None |}.

Definition gone_world : World :=
  {| db := {| schemas := {[ 1 := gone ]};
              tables := {[ 1 := [["Ada"]] ]} |};
     trace := [] |}.

(** Collaborators whose OAuth exchange returns no access token, whose
    exchange is refused, and whose importer fails. *)
Definition with_access
    (a : option string -> option string -> option string
         -> exn + gmap string string) : Collaborators :=
  {| get_setting := get_setting demo.plain;
     full_clean := full_clean demo.plain;
     from_private_sheet := from_private_sheet demo.plain;
     from_csv_url := from_csv_url demo.plain;
     from_screendoor := from_screendoor demo.plain;
     get_access_data := a;
     get_csv_from_url := get_csv_from_url demo.plain;
     fetch_csv := fetch_csv demo.plain;
     build_csv := build_csv demo.plain;
     import_records := import_records demo.plain;
     csv_records := csv_records demo.plain;
     str_dynmodel := str_dynmodel demo.plain;
     int_of_text := int_of_text demo.plain |}.

Definition tokenless : Collaborators :=
  with_access (fun _ _ _ => inr {[ "expires_in" := "3599" ]}).

Definition refused : Collaborators :=
  with_access (fun _ _ _ => inl (ExternalError "invalid_grant")).

Definition locked : Collaborators :=
  {| get_setting := get_setting demo.plain;
     full_clean := full_clean demo.plain;
     from_private_sheet := from_private_sheet demo.plain;
     from_csv_url := from_csv_url demo.plain;
     from_screendoor := from_screendoor demo.plain;
     get_access_data := get_access_data demo.plain;
     get_csv_from_url := get_csv_from_url demo.plain;
     fetch_csv := fetch_csv demo.plain;
     build_csv := build_csv demo.plain;
     import_records :=
       fun _ _ rows => (rows, inl (ExternalError "database is locked"));
     csv_records := csv_records demo.plain;
     str_dynmodel := str_dynmodel demo.plain;
     int_of_text := int_of_text demo.plain |}.


(** Intake submissions: a document that is not on the web, a form-service
    submission without project id, with a project id that is no number,
    and with a form id that is no number; a CSV submission that also
    fills in the form-service fields. *)
Definition gone_form : gmap string string :=
  {[ "csv_url" := "http://example.org/gone.csv"; "csv_name" := "gone" ]}.

Definition no_project_form : gmap string string :=
  {[ "sd_api_key" := "key"; "sd_name" := "answers" ]}.

Definition bad_project_form : gmap string string :=
  {[ "sd_api_key" := "key"; "sd_name" := "answers";
     "sd_project_id" := "twelve" ]}.

Definition bad_form_id_form : gmap string string :=
  {[ "sd_api_key" := "key"; "sd_name" := "answers";
     "sd_project_id" := "12"; "sd_form_id" := "x" ]}.

Definition both_form : gmap string string :=
  {[ "csv_url" := "http://example.org/people.csv"; "csv_name" := "people";
     "sd_api_key" := "key"; "sd_name" := "answers";
     "sd_project_id" := "twelve" ]}.

End cases.

(** ** Python values on examples *)

Example truthy_absent : truthy None = false.
Proof. reflexivity. Qed.

Example truthy_empty : truthy (Some "") = false.
Proof. reflexivity. Qed.

Example truthy_text : truthy (Some "0") = true.
Proof. reflexivity. Qed.

Example int_of_None : int demo.decimal None = inl TypeError.
Proof. reflexivity. Qed.

Example int_of_digits : int demo.decimal (Some "12") = inr 12.
Proof. reflexivity. Qed.

Example int_of_word : int demo.decimal (Some "twelve") = inl ValueError.
Proof. reflexivity. Qed.

Example int_or_None_empty : int_or_None demo.decimal (Some "") = inr None.
Proof. reflexivity. Qed.

Example int_or_None_digits :
  int_or_None demo.decimal (Some "7") = inr (Some 7).
Proof. reflexivity. Qed.

(** The code's conversions agree with the ids a submission is read to
    carry. *)
Lemma reads_form_id_int_or_None c v fid :
  reads_form_id c v fid -> int_or_None (int_of_text c) v = inr fid.
Proof.
  intros [v' Hv|s z Hs Hz]; unfold int_or_None.
  - rewrite Hv. reflexivity.
  - unfold truthy, int. apply String.eqb_neq in Hs. rewrite Hs, Hz.
    reflexivity.
Qed.

(** ** Properties of [begin] *)

Section Begin.

Variable c : Collaborators.
Variable request : HttpRequest.
Variable w : World.
Hypothesis logged_in : user_is_authenticated request = true.

(** C8, as amended.  On GET, [begin] renders the intake form when the
    [addnew] query parameter has a non-empty value, whatever the number of
    schema descriptors; otherwise (parameter absent or empty) it redirects
    to the admin surface when at least one descriptor exists and renders
    the intake form when none does.  The store and the log are untouched. *)
Theorem begin_get_dispatch :
  method request = "GET" ->
  begin c request w =
    (w, inr (Some
       (if truthy (GET request !! "addnew")
        then render request "begin.html" ∅
        else if bool_decide (size (schemas (db w)) ≠ 0%nat)
             then redirect "/admin/" []
             else render request "begin.html" ∅))).
Proof.
  intros Hm. unfold begin, login_required. rewrite logged_in, Hm. simpl.
  unfold bind, objects_count, ret.
  destruct (truthy (GET request !! "addnew")); [reflexivity|].
  unfold truthy_int.
  destruct (size (schemas (db w))) as [|n] eqn:E; reflexivity.
Qed.

End Begin.

(** C8, the claim as written fails: with the [addnew] parameter present but
    empty and one descriptor in the store, [begin] redirects to the admin
    surface instead of rendering the intake form. *)
Lemma begin_get_addnew_empty_redirects :
  let request := demo.get {[ "addnew" := "" ]} in
  let w := demo.after_begin demo.people_form in
  is_Some (GET request !! "addnew") /\
  size (schemas (db w)) = 1%nat /\
  begin demo.plain request w = (w, inr (Some (redirect "/admin/" []))) /\
  begin demo.plain request w
    <> (w, inr (Some (render request "begin.html" ∅))).
Proof.
  split; [exists ""; reflexivity|].
  split; [vm_compute; reflexivity|].
  split; [vm_compute; reflexivity|].
  vm_compute. discriminate.
Qed.

Lemma begin_get_dispatch_witness :
  let w := demo.after_begin demo.people_form in
  begin demo.plain (demo.get {[ "addnew" := "1" ]}) w
    = (w, inr (Some (TemplateResponse "begin.html" ∅))) /\
  begin demo.plain (demo.get ∅) w
    = (w, inr (Some (HttpResponseRedirect "/admin/" []))) /\
  begin demo.plain (demo.get ∅) demo.empty_world
    = (demo.empty_world, inr (Some (TemplateResponse "begin.html" ∅))).
Proof.
  intros w. split; [|split].
  - exact (begin_get_dispatch demo.plain (demo.get {[ "addnew" := "1" ]}) w
             eq_refl eq_refl).
  - exact (begin_get_dispatch demo.plain (demo.get ∅) w eq_refl eq_refl).
  - exact (begin_get_dispatch demo.plain (demo.get ∅) demo.empty_world
             eq_refl eq_refl).
Defined.

Section BeginPost.

Variable c : Collaborators.
Variable request : HttpRequest.
Variable w : World.
Hypothesis logged_in : user_is_authenticated request = true.
Hypothesis is_post : method request = "POST".

(** What a POST to [begin] returns once the source fields designate a
    factory: the factory runs once on the store, and its outcome decides
    between the redirect, the intake page with the error, and an
    exception passed on. *)
Lemma begin_post_designated ev f :
  designates c request ev f ->
  begin c request w =
    let w' := {| db := (f (db w)).1; trace := trace w ++ [ev] |} in
    match (f (db w)).2 with
    | inr dm =>
        (w', inr (Some (redirect "csv_models:refine-and-import"
                          [models.id dm])))
    | inl (UniqueColumnError e) =>
        (w', inr (Some (render request "begin.html"
                          {[ "errors" := CStr e ]})))
    | inl e => (w', inl e)
    end.
Proof.
  intros D. unfold begin, login_required. rewrite logged_in, is_post.
  cbn [String.eqb Ascii.eqb Bool.eqb].
  unfold try_except_UniqueColumnError.
  destruct D as [url code -> -> Hu Hc | url code -> -> Hu Hc
                | key ps pid fid -> Hu Hk Hps Hp Hfid].
  3: assert (Hp' : int (int_of_text c) (POST request !! "sd_project_id")
                   = inr pid) by (rewrite Hps; unfold int; rewrite Hp;
                                  reflexivity).
  3: pose proof (reads_form_id_int_or_None _ _ _ Hfid) as Hf.
  - rewrite Hu, Hc. cbn [andb].
    unfold bind, call_db, emit, ret. cbn.
    destruct (from_private_sheet c _ _ _ (db w)) as [d' [e|dm]];
      cbn; [destruct e|]; reflexivity.
  - rewrite Hu, Hc. cbn [andb].
    unfold bind, call_db, emit, ret. cbn.
    destruct (from_csv_url c _ _ _ (db w)) as [d' [e|dm]];
      cbn; [destruct e|]; reflexivity.
  - rewrite Hu, Hk. cbn [andb].
    unfold bind, lift, call_db, emit, ret. rewrite Hp', Hf. cbn.
    destruct (from_screendoor c _ _ _ _ (db w)) as [d' [e|dm]];
      cbn; [destruct e|]; reflexivity.
Qed.

(** C10.  A POST to [begin] in which neither [csv_url] nor [sd_api_key]
    is submitted with a non-empty value binds no descriptor: the handler
    raises [UnboundLocalError] for [dynmodel] and returns no response; no
    factory has been called and the store is as it was. *)
Theorem begin_post_without_source_is_unbound :
  truthy (POST request !! "csv_url") = false ->
  truthy (POST request !! "sd_api_key") = false ->
  begin c request w = (w, inl (UnboundLocalError "dynmodel")).
Proof.
  intros Hu Hk. unfold begin, login_required. rewrite logged_in, is_post.
  cbn [String.eqb Ascii.eqb Bool.eqb].
  unfold try_except_UniqueColumnError. rewrite Hu, Hk. reflexivity.
Qed.


End BeginPost.

Lemma begin_post_without_source_witness :
  begin demo.plain (demo.post ∅) demo.empty_world
  = (demo.empty_world, inl (UnboundLocalError "dynmodel")).
Proof.
  exact (begin_post_without_source_is_unbound demo.plain (demo.post ∅)
           demo.empty_world eq_refl eq_refl eq_refl eq_refl).
Defined.



(** The next primary key is above every key of the store, so fresh. *)
Lemma foldr_max_bound (l : list Z) (x : Z) :
  x ∈ l -> x <= foldr Z.max 0 l.
Proof.
  induction l as [|a l IH]; intros Hin; [by apply elem_of_nil in Hin|].
  cbn [foldr]. apply elem_of_cons in Hin as [->|Hin].
  - apply Z.le_max_l.
  - etransitivity; [apply IH, Hin|apply Z.le_max_r].
Qed.

Lemma next_pk_fresh (m : gmap Z DynamicModel) : m !! next_pk m = None.
Proof.
  destruct (m !! next_pk m) as [d|] eqn:E; [|reflexivity]. exfalso.
  apply elem_of_map_to_list in E.
  assert (Hin : next_pk m ∈ (map_to_list m).*1).
  { apply list_elem_of_fmap. exists (next_pk m, d). split; [reflexivity|exact E]. }
  apply foldr_max_bound in Hin. unfold next_pk in Hin. lia.
Qed.

Section BeginCreates.

Variable c : Collaborators.
Variable i : Inference.
Variable request : HttpRequest.
Variable w : World.
Hypothesis logged_in : user_is_authenticated request = true.
Hypothesis is_post : method request = "POST".

(** What [begin] returns when the designated factory is the modelled one
    and its inference succeeds. *)
Lemma begin_post_created ev source name cols dm :
  designates (with_factories i c) request ev
    (dynmodel.create i name source) ->
  infer_columns i source = inr cols ->
  (dynmodel.create i name source (db w)).2 = inr dm ->
  creates_exactly w ev dm (begin (with_factories i c) request w).
Proof.
  intros D Hcols Hdm.
  rewrite (begin_post_designated (with_factories i c) request w
             logged_in is_post ev _ D).
  unfold dynmodel.create in *. rewrite Hcols in *. cbn [fst snd] in *.
  assert (Hid : models.id dm = next_pk (schemas (db w))).
  { inversion Hdm; subst dm. destruct source; reflexivity. }
  inversion Hdm as [Hdm']. rewrite Hdm'. rewrite <- Hid.
  unfold creates_exactly. cbn [fst snd db schemas].
  split; [reflexivity|].
  assert (Hfresh : schemas (db w) !! models.id dm = None)
    by (rewrite Hid; apply next_pk_fresh).
  split; [exact Hfresh|]. by apply map_size_insert_None.
Qed.

(** C6.  With the factories as the spec describes them, a POST to [begin]
    creates exactly one descriptor for each of the three combinations of
    source fields, private sheet first: with [csv_url] and the auth code,
    the descriptor holds the URL and the refresh token the code was
    exchanged for; with [csv_url] alone, the URL; with [sd_api_key] and
    its ids (no [csv_url]), the key, the project id and the form id as
    numbers, the form id being none when its field is absent or empty.
    In each case the other source fields are empty, the matching factory
    is the one call made, the store has one descriptor more under a new
    key, and the response is the redirect to the refine-and-import step
    with that key. *)
Theorem begin_post_creates_and_redirects :
  let c' := with_factories i c in
  let pk := next_pk (schemas (db w)) in
  let url := POST request !! "csv_url" in
  let code := POST request !! "csv_google_sheets_auth_code" in
  let key := POST request !! "sd_api_key" in
  let csv_name := POST request !! "csv_name" in
  let sd_name := POST request !! "sd_name" in
  (forall token cols,
     truthy url = true -> truthy code = true ->
     exchange_auth_code i code = inr token ->
     infer_columns i (CsvSheet url token) = inr cols ->
     creates_exactly w (EvFromPrivateSheet csv_name url code)
       {| id := pk; name := default "" csv_name; columns := cols;
          csv_url := url; csv_google_refresh_token := Some token;
          sd_api_key := None; sd_project_id := None; sd_form_id := None |}
       (begin c' request w)) /\
  (forall cols,
     truthy url = true -> truthy code = false ->
     infer_columns i (CsvDirect url) = inr cols ->
     creates_exactly w (EvFromCsvUrl csv_name url code)
       {| id := pk; name := default "" csv_name; columns := cols;
          csv_url := url; csv_google_refresh_token := None;
          sd_api_key := None; sd_project_id := None; sd_form_id := None |}
       (begin c' request w)) /\
  (forall project_text project_id form_id cols,
     truthy url = false -> truthy key = true ->
     POST request !! "sd_project_id" = Some project_text ->
     int_of_text c project_text = Some project_id ->
     reads_form_id c (POST request !! "sd_form_id") form_id ->
     infer_columns i (FormService key project_id form_id) = inr cols ->
     creates_exactly w (EvFromScreendoor sd_name key project_id form_id)
       {| id := pk; name := default "" sd_name; columns := cols;
          csv_url := None; csv_google_refresh_token := None;
          sd_api_key := key; sd_project_id := Some project_id;
          sd_form_id := form_id |}
       (begin c' request w)).
Proof.
  intros c' pk url code key csv_name sd_name. repeat apply conj.
  - intros token cols Hu Hc Htoken Hcols.
    pose proof (designates_private_sheet c' request url code
                  eq_refl eq_refl Hu Hc) as D.
    cbn [from_private_sheet c' with_factories] in D.
    unfold dynmodel.from_private_sheet in D.
    assert (Hf : dynmodel.from_private_sheet i csv_name url code
                 = dynmodel.create i csv_name (CsvSheet url token)).
    { unfold dynmodel.from_private_sheet. fold code. rewrite Htoken.
      reflexivity. }
    unfold dynmodel.from_private_sheet in Hf. fold csv_name in D.
    rewrite Hf in D.
    apply (begin_post_created _ _ _ cols _ D Hcols).
    unfold dynmodel.create. rewrite Hcols. reflexivity.
  - intros cols Hu Hc Hcols.
    pose proof (designates_csv_url c' request url code
                  eq_refl eq_refl Hu Hc) as D.
    apply (begin_post_created _ (CsvDirect url) csv_name cols _ D Hcols).
    unfold dynmodel.create. rewrite Hcols. reflexivity.
  - intros ps p fid cols Hu Hk Hps Hp Hfid Hcols.
    assert (Hfid' : reads_form_id c' (POST request !! "sd_form_id") fid).
    { destruct Hfid; [by constructor|by constructor]. }
    pose proof (designates_screendoor c' request key ps p fid
                  eq_refl Hu Hk Hps Hp Hfid') as D.
    apply (begin_post_created _ (FormService key p fid) sd_name cols _ D
             Hcols).
    unfold dynmodel.create. rewrite Hcols. reflexivity.
Qed.

End BeginCreates.

Lemma begin_post_creates_and_redirects_witness :
  let sheet :=
    {| id := 1; name := "sheet"; columns := demo.name_age;
       csv_url := Some "http://example.org/people.csv";
       csv_google_refresh_token := Some "refresh-4/code";
       sd_api_key := None; sd_project_id := None; sd_form_id := None |} in
  let answers :=
    {| id := 1; name := "answers";
       columns := [("id", "text"); ("answer", "text")];
       csv_url := None; csv_google_refresh_token := None;
       sd_api_key := Some "key"; sd_project_id := Some 12;
       sd_form_id := None |} in
  creates_exactly demo.empty_world
    (EvFromPrivateSheet (Some "sheet")
       (Some "http://example.org/people.csv") (Some "4/code"))
    sheet (begin demo.making (demo.post demo.sheet_form) demo.empty_world)
  /\
  creates_exactly demo.empty_world
    (EvFromCsvUrl (Some "people") (Some "http://example.org/people.csv")
       None)
    (demo.descriptor demo.people_form)
    (begin demo.making (demo.post demo.people_form) demo.empty_world) /\
  creates_exactly demo.empty_world
    (EvFromScreendoor (Some "answers") (Some "key") 12 None)
    answers
    (begin demo.making (demo.post demo.screendoor_form) demo.empty_world).
Proof.
  intros sheet answers. split; [|split].
  - exact (proj1 (begin_post_creates_and_redirects demo.plain
                    demo.inference (demo.post demo.sheet_form)
                    demo.empty_world eq_refl eq_refl)
             "refresh-4/code" demo.name_age
             eq_refl eq_refl eq_refl eq_refl).
  - exact (proj1 (proj2 (begin_post_creates_and_redirects demo.plain
                    demo.inference (demo.post demo.people_form)
                    demo.empty_world eq_refl eq_refl))
             demo.name_age eq_refl eq_refl eq_refl).
  - exact (proj2 (proj2 (begin_post_creates_and_redirects demo.plain
                    demo.inference (demo.post demo.screendoor_form)
                    demo.empty_world eq_refl eq_refl))
             "12" 12 None [("id", "text"); ("answer", "text")]
             eq_refl eq_refl eq_refl eq_refl
             (reads_no_form_id demo.plain (Some "") eq_refl) eq_refl).
Defined.

(** ** Properties of [refine_and_import] *)

(** The fetch never writes to the store, and only adds fetch calls to the
    log. *)
Lemma fetch_source_data_frame c d w :
  db (fetch_source_data c d w).1 = db w /\
  exists calls,
    trace (fetch_source_data c d w).1 = (trace w ++ calls)%list /\
    fetches calls = calls.
Proof.
  unfold fetch_source_data.
  destruct (truthy (csv_url d) && truthy (csv_google_refresh_token d)).
  - unfold bind, call, emit, getitem, ret, raise. cbn.
    destruct (get_access_data c _ _ _) as [e|data]; cbn.
    + split; [reflexivity|]. eexists [_]. split; reflexivity.
    + destruct (data !! "access_token") as [token|]; cbn.
      * split; [reflexivity|]. eexists [_; _].
        rewrite <- app_assoc. split; reflexivity.
      * split; [reflexivity|]. eexists [_]. split; reflexivity.
  - destruct (truthy (csv_url d)).
    + unfold bind, call, emit. cbn. split; [reflexivity|].
      eexists [_]. split; reflexivity.
    + destruct (truthy (sd_api_key d)).
      * unfold bind, call, emit. cbn. split; [reflexivity|].
        eexists [_]. split; reflexivity.
      * unfold raise. cbn. split; [reflexivity|]. exists [].
        rewrite app_nil_r. split; reflexivity.
Qed.

Lemma fetches_app t1 t2 : fetches (t1 ++ t2) = (fetches t1 ++ fetches t2)%list.
Proof. apply List.filter_app. Qed.

Section RefinePost.

Variable c : Collaborators.
Variable request : HttpRequest.
Variable id : Z.
Variable w : World.
Variable dm : DynamicModel.
Hypothesis logged_in : user_is_authenticated request = true.
Hypothesis is_post : method request = "POST".
Hypothesis resolves : schemas (db w) !! id = Some dm.

(** C5.  A POST to [refine_and_import] whose column specification fails
    the refine form's validation performs no save: the store and the log
    are as they were, and the response is the refine page with the
    descriptor and the form, which carries its field errors. *)
Theorem refine_post_invalid_rerenders :
  (full_clean c (POST request)).1 <> [] ->
  exists form,
    refine_and_import c request id w =
      (w, inr (Some (TemplateResponse "refine-and-import.html"
                       {[ "form" := CForm form;
                          "dynmodel" := CDynmodel dm ]}))) /\
    form_data form = Submitted (POST request) /\
    form_errors form = Some (full_clean c (POST request)).1.
Proof.
  intros Hinv. exists (SchemaRefineForm_bound c (POST request)).
  split; [|split; reflexivity].
  unfold refine_and_import, login_required. rewrite logged_in.
  unfold bind at 1. unfold get_object_or_404. rewrite resolves, is_post.
  cbn [String.eqb Ascii.eqb Bool.eqb].
  unfold is_valid, SchemaRefineForm_bound. cbn [form_errors].
  destruct (full_clean c (POST request)).1; [congruence|]. reflexivity.
Qed.

Variable cols : Columns.
Hypothesis is_clean : full_clean c (POST request) = ([], Some cols).

(** What a POST with a valid column specification returns, by the outcome
    of the fetch and of the importer. *)
Lemma refine_post_valid_outcome :
  let d := set_columns cols dm in
  refine_and_import c request id w =
    match fetch_source_data c d (saved d w) with
    | (w1, inl e) => (w1, inl e)
    | (w1, inr csv) =>
        let out := import_records c csv d (table_rows (db w1) (models.id d)) in
        let w2 :=
          {| db := {| schemas := schemas (db w1);
                      tables := <[models.id d := out.1]> (tables (db w1)) |};
             trace := trace w1 ++ [EvImportRecords csv (models.id d)] |} in
        match out.2 with
        | inl e => (w2, inl e)
        | inr errors =>
            ({| db := db w2; trace := trace w2 ++ [EvLogError errors] |},
             inr (Some
               (if truthy_list errors then
                  render request "refine-and-import.html"
                    {[ "form" := CForm (SchemaRefineForm_bound c (POST request));
                       "dynmodel" := CDynmodel d;
                       "errors" := CErrors errors ]}
                else if truthy (get_setting c "CSV_MODELS_WIZARD_REDIRECT_TO")
                then redirect
                       (default "" (get_setting c "CSV_MODELS_WIZARD_REDIRECT_TO"))
                       []
                else render request "import-complete.html"
                       {[ "dynmodel" := CDynmodel d;
                          "n_records" :=
                            CInt (Z.of_nat (List.length out.1)) ]})))
        end
    end.
Proof.
  intros d. subst d.
  unfold refine_and_import, login_required. rewrite logged_in.
  unfold bind at 1. unfold get_object_or_404. rewrite resolves, is_post.
  cbn [String.eqb Ascii.eqb Bool.eqb].
  unfold is_valid, SchemaRefineForm_bound, cleaned_data.
  cbn [form_errors form_data]. rewrite is_clean.
  cbn [fst snd truthy_list negb String.eqb Ascii.eqb Bool.eqb].
  unfold saved, save, call_import_records, call_db, refresh_from_db,
    Model_objects_count, get_model, table_rows, bind, emit, ret.
  cbn [fst snd db trace schemas tables]. rewrite lookup_insert_eq.
  set (d := set_columns cols dm).
  destruct (fetch_source_data c d _) as [w1 [e|csv]]; [reflexivity|].
  cbn [db trace].
  destruct (import_records c csv d _) as [rows' [e|errors]];
    cbn [fst snd db trace schemas tables]; [reflexivity|].
  destruct (truthy_list errors); [reflexivity|].
  destruct (truthy (get_setting c "CSV_MODELS_WIZARD_REDIRECT_TO"));
    [reflexivity|].
  cbn [db tables]. rewrite lookup_insert_eq. reflexivity.
Qed.

(** C2.  A POST to [refine_and_import] with a valid column specification
    whose import reports [N > 0] row errors returns the refine page, not a
    redirect, and the page's context holds exactly those errors under
    ["errors"], the form under ["form"] and the descriptor under
    ["dynmodel"]; the column specification saved before the import is
    still the persisted one. *)
Theorem refine_post_row_errors_rerender csv w1 rows' errors :
  let d := set_columns cols dm in
  fetch_source_data c d (saved d w) = (w1, inr csv) ->
  import_records c csv d (table_rows (db w) (models.id d))
    = (rows', inr errors) ->
  errors <> [] ->
  exists w' context,
    refine_and_import c request id w =
      (w', inr (Some (TemplateResponse "refine-and-import.html" context))) /\
    context !! "errors" = Some (CErrors errors) /\
    context !! "form"
      = Some (CForm (SchemaRefineForm_bound c (POST request))) /\
    context !! "dynmodel" = Some (CDynmodel d) /\
    size context = 3%nat /\
    schemas (db w') !! models.id d = Some d /\
    columns d = cols.
Proof.
  intros d Hfetch Himport Herr.
  pose proof (fetch_source_data_frame c d (saved d w)) as [Hdb _].
  rewrite Hfetch in Hdb. cbn [fst] in Hdb.
  assert (Hrows : table_rows (db w1) (models.id d)
                  = table_rows (db w) (models.id d)).
  { rewrite Hdb. unfold saved, save, call_db, bind, emit, table_rows.
    cbn. rewrite lookup_insert_eq. reflexivity. }
  assert (Hschema : schemas (db w1) !! models.id d = Some d).
  { rewrite Hdb. unfold saved, save, call_db, bind, emit. cbn.
    apply lookup_insert_eq. }
  pose proof refine_post_valid_outcome as Hout. cbv zeta in Hout.
  fold d in Hout. rewrite Hfetch, Hrows, Himport in Hout.
  cbn [fst snd db] in Hout.
  destruct errors as [|err errors]; [congruence|].
  cbn [truthy_list] in Hout.
  eexists _, _. split; [exact Hout|]. cbn [db trace schemas tables].
  split; [reflexivity|]. split; [reflexivity|]. split; [reflexivity|].
  split; [reflexivity|]. split; [exact Hschema|reflexivity].
Qed.

(** After the fetch, the handler makes no further fetch call and hands
    the fetch's result on. *)
Lemma refine_post_after_fetch w1 r :
  let d := set_columns cols dm in
  fetch_source_data c d (saved d w) = (w1, r) ->
  fetches (trace (refine_and_import c request id w).1) = fetches (trace w1) /\
  handed_on r (models.id d) (refine_and_import c request id w).
Proof.
  intros d Hfetch.
  pose proof refine_post_valid_outcome as Hout. cbv zeta in Hout.
  fold d in Hout. rewrite Hfetch in Hout. rewrite Hout. clear Hout.
  destruct r as [e|csv]; [split; reflexivity|].
  destruct (import_records c csv d _) as [rows' [e|errors]];
    cbn [fst snd db trace handed_on].
  - rewrite fetches_app. cbn. rewrite app_nil_r. split; [reflexivity|].
    apply elem_of_app. right. apply list_elem_of_singleton. reflexivity.
  - rewrite !fetches_app. cbn. rewrite !app_nil_r. split; [reflexivity|].
    apply elem_of_app. left. apply elem_of_app. right.
    apply list_elem_of_singleton. reflexivity.
Qed.

Lemma fetches_saved d : fetches (trace (saved d w)) = fetches (trace w).
Proof.
  unfold saved, save, call_db, bind, emit. cbn.
  rewrite fetches_app. cbn. apply app_nil_r.
Qed.

(** C3.  On a POST to [refine_and_import] with a valid column
    specification, the fetch is chosen by the persisted descriptor's
    source fields, in this order.  With [csv_url] and
    [csv_google_refresh_token] populated, the OAuth client is asked for
    access data with the refresh token and the sheet is fetched with the
    access token obtained; with [csv_url] populated and no refresh token,
    the CSV is fetched directly; with no [csv_url] and [sd_api_key]
    populated, the form service builds the CSV.  In each case these are
    the only fetch calls of the run and the fetch's result is handed on.
    With neither [csv_url] nor [sd_api_key] populated (so when none of the
    three is), the handler raises [NotImplementedError] after the save and
    returns no response. *)
Theorem refine_post_fetch_dispatch :
  let d := set_columns cols dm in
  let out := refine_and_import c request id w in
  let client_id := get_setting c "GOOGLE_CLIENT_ID" in
  let client_secret := get_setting c "GOOGLE_CLIENT_SECRET" in
  (truthy (csv_url dm) = true ->
   truthy (csv_google_refresh_token dm) = true ->
   forall data token,
     get_access_data c client_id client_secret (csv_google_refresh_token dm)
       = inr data ->
     data !! "access_token" = Some token ->
     fetches (trace out.1) =
       (fetches (trace w) ++
        [EvGetAccessData client_id client_secret
           (csv_google_refresh_token dm);
         EvGetCsvFromUrl token (csv_url dm)])%list /\
     handed_on (get_csv_from_url c token (csv_url dm)) (models.id d) out) /\
  (truthy (csv_url dm) = true ->
   truthy (csv_google_refresh_token dm) = false ->
   fetches (trace out.1) =
     (fetches (trace w) ++ [EvFetchCsv (csv_url dm)])%list /\
   handed_on (fetch_csv c (csv_url dm)) (models.id d) out) /\
  (truthy (csv_url dm) = false ->
   truthy (sd_api_key dm) = true ->
   fetches (trace out.1) =
     (fetches (trace w) ++
      [EvBuildCsv (sd_api_key dm) (sd_project_id dm) (sd_form_id dm)])%list /\
   handed_on (build_csv c (sd_api_key dm) (sd_project_id dm) (sd_form_id dm))
     (models.id d) out) /\
  (truthy (csv_url dm) = false ->
   truthy (sd_api_key dm) = false ->
   out = (saved d w,
          inl (NotImplementedError
                 ("Invalid data source for " ++ str_dynmodel c d)))).
Proof.
  intros d out client_id client_secret.
  assert (Hrun : forall calls r,
    fetch_source_data c d (saved d w)
      = ({| db := db (saved d w); trace := trace (saved d w) ++ calls |}, r) ->
    fetches calls = calls ->
    fetches (trace out.1) = (fetches (trace w) ++ calls)%list /\
    handed_on r (models.id d) out).
  { intros calls r Hf Hc.
    destruct (refine_post_after_fetch _ _ Hf) as [Ht Hh].
    split; [|exact Hh]. fold out in Ht. rewrite Ht. cbn [trace].
    rewrite fetches_app, fetches_saved, Hc. reflexivity. }
  repeat apply conj.
  - intros Hu Ht data token Hdata Htoken. apply Hrun; [|reflexivity].
    unfold fetch_source_data. cbn [csv_url csv_google_refresh_token d set_columns].
    rewrite Hu, Ht. cbn [andb]. fold client_id client_secret.
    unfold call, bind, emit. rewrite Hdata. cbv beta iota.
    unfold getitem. rewrite Htoken. unfold ret. cbn [db trace].
    rewrite <- app_assoc. reflexivity.
  - intros Hu Ht. apply Hrun; [|reflexivity].
    unfold fetch_source_data. cbn [csv_url csv_google_refresh_token d set_columns].
    rewrite Hu, Ht. cbn [andb]. reflexivity.
  - intros Hu Hk. apply Hrun; [|reflexivity].
    unfold fetch_source_data.
    cbn [csv_url csv_google_refresh_token sd_api_key sd_project_id
         sd_form_id d set_columns].
    rewrite Hu, Hk. cbn [andb]. reflexivity.
  - intros Hu Hk.
    pose proof refine_post_valid_outcome as Hout. cbv zeta in Hout.
    fold d out in Hout. rewrite Hout.
    unfold fetch_source_data.
    cbn [csv_url csv_google_refresh_token sd_api_key d set_columns].
    rewrite Hu, Hk. cbn [andb]. reflexivity.
Qed.

End RefinePost.


Section RefineImports.

Variable c : Collaborators.
Variable check : DynamicModel -> Row -> option string.
Variable request : HttpRequest.
Variable id : Z.
Variable w : World.
Variable dm : DynamicModel.
Hypothesis logged_in : user_is_authenticated request = true.
Hypothesis is_post : method request = "POST".
Hypothesis resolves : schemas (db w) !! id = Some dm.
Variable cols : Columns.
Hypothesis is_clean : full_clean c (POST request) = ([], Some cols).


End RefineImports.



(** ** Properties of [refine_and_import_by_name] *)

(** A list without duplicates whose members all equal [x], and which has
    [x], is the list of [x] alone. *)
Lemma NoDup_all_eq_singleton {A} (l : list A) (x : A) :
  NoDup l -> x ∈ l -> (forall y, y ∈ l -> y = x) -> l = [x].
Proof.
  intros Hnd Hin Hall. destruct l as [|a l]; [by apply elem_of_nil in Hin|].
  assert (a = x) as -> by (apply Hall; left).
  destruct l as [|b l]; [reflexivity|].
  assert (b = x) as -> by (apply Hall; right; left).
  apply NoDup_cons in Hnd as [Hnot _]. exfalso. apply Hnot. left.
Qed.

(** The name lookup resolves a name borne by exactly one descriptor to
    that descriptor's key. *)
Lemma objects_get_or_404_unique n id dm w :
  schemas (db w) !! id = Some dm ->
  models.name dm = n ->
  (forall j d, schemas (db w) !! j = Some d -> models.name d = n -> j = id) ->
  objects_get_or_404 n w = (w, inr id).
Proof.
  intros Hlook Hname Huniq. unfold objects_get_or_404.
  rewrite (NoDup_all_eq_singleton
             (filter (fun kd : Z * DynamicModel => models.name kd.2 = n)
                (map_to_list (schemas (db w)))) (id, dm)); [reflexivity| | |].
  - apply NoDup_filter, NoDup_map_to_list.
  - apply list_elem_of_filter. split; [exact Hname|].
    by apply elem_of_map_to_list.
  - intros [j d] [Hn Hin]%list_elem_of_filter.
    apply elem_of_map_to_list in Hin. cbn in Hn.
    assert (j = id) as -> by eauto. congruence.
Qed.

(** A name no descriptor bears is not found. *)
Lemma objects_get_or_404_unmatched n w :
  (forall j d, schemas (db w) !! j = Some d -> models.name d <> n) ->
  objects_get_or_404 n w = (w, inl Http404).
Proof.
  intros Hnone. unfold objects_get_or_404.
  destruct (filter _ _) as [|[j d] l] eqn:E; [reflexivity|].
  assert (Hin : (j, d) ∈ filter
            (fun kd : Z * DynamicModel => models.name kd.2 = n)
            (map_to_list (schemas (db w)))) by (rewrite E; left).
  apply list_elem_of_filter in Hin as [Hn Hin].
  apply elem_of_map_to_list in Hin. exfalso. exact (Hnone j d Hin Hn).
Qed.

(** C7.  For every request, [refine_and_import_by_name] with the name of
    exactly one descriptor returns what [refine_and_import] returns for
    that descriptor's identity, store and log included; with a name no
    descriptor bears, a logged-in request is answered "not found" and
    nothing is changed. *)
Theorem refine_and_import_by_name_delegates c request n w :
  (forall id dm,
     schemas (db w) !! id = Some dm ->
     models.name dm = n ->
     (forall j d,
        schemas (db w) !! j = Some d -> models.name d = n -> j = id) ->
     refine_and_import_by_name c request n w
     = refine_and_import c request id w) /\
  (user_is_authenticated request = true ->
   (forall j d, schemas (db w) !! j = Some d -> models.name d <> n) ->
   refine_and_import_by_name c request n w = (w, inl Http404)).
Proof.
  split.
  - intros id dm Hlook Hname Huniq.
    unfold refine_and_import_by_name.
    unfold login_required at 1.
    destruct (user_is_authenticated request) eqn:Hauth.
    + unfold bind at 1.
      rewrite (objects_get_or_404_unique n id dm w Hlook Hname Huniq).
      reflexivity.
    + unfold refine_and_import, login_required. rewrite Hauth. reflexivity.
  - intros Hauth Hnone. unfold refine_and_import_by_name, login_required.
    rewrite Hauth. unfold bind at 1.
    rewrite (objects_get_or_404_unmatched n w Hnone). reflexivity.
Qed.

(** ** Properties of [import_data] *)

(** C9.  For a logged-in request to [import_data]: a GET whose id resolves
    returns the auto-submitting page with the descriptor and leaves the
    store and the log as they were (nothing is fetched, imported or
    saved); an id that does not resolve is answered "not found"; and no
    request other than a POST changes the store or the log. *)
Theorem import_data_get_only_renders request id w :
  user_is_authenticated request = true ->
  (forall dm,
     method request = "GET" ->
     schemas (db w) !! id = Some dm ->
     import_data request id w =
       (w, inr (Some (TemplateResponse "import-data.html"
                        {[ "dynmodel" := CDynmodel dm ]})))) /\
  (schemas (db w) !! id = None ->
   import_data request id w = (w, inl Http404)) /\
  (method request <> "POST" -> (import_data request id w).1 = w).
Proof.
  intros Hauth. unfold import_data, login_required. rewrite Hauth.
  unfold bind, get_object_or_404.
  repeat apply conj.
  - intros dm Hget Hlook. rewrite Hlook, Hget. reflexivity.
  - intros Hlook. rewrite Hlook. reflexivity.
  - intros _. destruct (schemas (db w) !! id); [|reflexivity].
    destruct (String.eqb (method request) "GET"); [reflexivity|].
    destruct (String.eqb (method request) "POST"); reflexivity.
Qed.

(** ** The handlers on the example collaborators *)

Lemma refine_post_invalid_rerenders_witness :
  let w := demo.after_begin demo.people_form in
  exists form,
    refine_and_import demo.plain (demo.post demo.repeated_columns_form) 1 w =
      (w, inr (Some (TemplateResponse "refine-and-import.html"
                       {[ "form" := CForm form;
                          "dynmodel" :=
                            CDynmodel (demo.descriptor demo.people_form) ]})))
    /\ form_data form = Submitted demo.repeated_columns_form
    /\ form_errors form = Some ["Column names must be unique."].
Proof.
  exact (refine_post_invalid_rerenders demo.plain
           (demo.post demo.repeated_columns_form) 1
           (demo.after_begin demo.people_form)
           (demo.descriptor demo.people_form)
           eq_refl eq_refl eq_refl ltac:(discriminate)).
Defined.

Lemma refine_post_row_errors_rerender_witness :
  let w := demo.after_begin demo.ragged_form in
  let d := demo.descriptor demo.ragged_form in
  exists w' context,
    refine_and_import demo.redirecting (demo.post demo.columns_form) 1 w =
      (w', inr (Some (TemplateResponse "refine-and-import.html" context))) /\
    context !! "errors"
      = Some (CErrors [mkImportError 2 "wrong number of fields"]) /\
    schemas (db w') !! 1 = Some d.
Proof.
  intros w d.
  destruct (refine_post_row_errors_rerender demo.redirecting
              (demo.post demo.columns_form) 1 w d
              eq_refl eq_refl eq_refl demo.name_age eq_refl
              demo.ragged
              (fetch_source_data demo.redirecting d (saved d w)).1
              [["Ada"; "36"]]
              [mkImportError 2 "wrong number of fields"]
              eq_refl eq_refl ltac:(discriminate))
    as (w' & context & Hrun & Herrors & _ & _ & _ & Hschema & _).
  exists w', context.
  split; [exact Hrun|]. split; [exact Herrors|exact Hschema].
Defined.

Lemma refine_post_fetch_dispatch_witness :
  let request := demo.post demo.columns_form in
  let url := Some "http://example.org/people.csv" in
  fetches (trace (refine_and_import demo.plain request 1
                    (demo.after_begin demo.sheet_form)).1)
    = [EvGetAccessData None None (Some "refresh-4/code");
       EvGetCsvFromUrl "access-refresh-4/code" url] /\
  fetches (trace (refine_and_import demo.plain request 1
                    (demo.after_begin demo.people_form)).1)
    = [EvFetchCsv url] /\
  fetches (trace (refine_and_import demo.plain request 1
                    (demo.after_begin demo.screendoor_form)).1)
    = [EvBuildCsv (Some "key") (Some 12) None] /\
  refine_and_import demo.plain request 1 demo.sourceless_world
    = (saved (set_columns demo.name_age demo.sourceless)
         demo.sourceless_world,
       inl (NotImplementedError "Invalid data source for sourceless")).
Proof.
  intros request url.
  split; [|split; [|split]].
  - destruct (refine_post_fetch_dispatch demo.plain request 1
                (demo.after_begin demo.sheet_form)
                (demo.descriptor demo.sheet_form)
                eq_refl eq_refl eq_refl demo.name_age eq_refl)
      as (Hsheet & _).
    exact (proj1 (Hsheet eq_refl eq_refl
                    {[ "access_token" := "access-refresh-4/code" ]}
                    "access-refresh-4/code" eq_refl eq_refl)).
  - destruct (refine_post_fetch_dispatch demo.plain request 1
                (demo.after_begin demo.people_form)
                (demo.descriptor demo.people_form)
                eq_refl eq_refl eq_refl demo.name_age eq_refl)
      as (_ & Hdirect & _).
    exact (proj1 (Hdirect eq_refl eq_refl)).
  - destruct (refine_post_fetch_dispatch demo.plain request 1
                (demo.after_begin demo.screendoor_form)
                demo.answers_descriptor
                eq_refl eq_refl eq_refl demo.name_age eq_refl)
      as (_ & _ & Hservice & _).
    exact (proj1 (Hservice eq_refl eq_refl)).
  - destruct (refine_post_fetch_dispatch demo.plain request 1
                demo.sourceless_world demo.sourceless
                eq_refl eq_refl eq_refl demo.name_age eq_refl)
      as (_ & _ & _ & Hnone).
    exact (Hnone eq_refl eq_refl).
Defined.

Lemma demo_only_descriptor fields j d :
  schemas (db (demo.after_begin fields)) !! j = Some d ->
  schemas (db (demo.after_begin fields))
    = {[ 1 := demo.descriptor fields ]} ->
  j = 1 /\ d = demo.descriptor fields.
Proof.
  intros Hlook Hmap. rewrite Hmap in Hlook.
  apply lookup_singleton_Some in Hlook as [<- <-]. split; reflexivity.
Qed.

Lemma refine_and_import_by_name_delegates_witness :
  let w := demo.after_begin demo.people_form in
  refine_and_import_by_name demo.plain (demo.get ∅) "people" w
    = refine_and_import demo.plain (demo.get ∅) 1 w /\
  refine_and_import_by_name demo.plain (demo.post demo.columns_form)
    "people" w
    = refine_and_import demo.plain (demo.post demo.columns_form) 1 w /\
  refine_and_import_by_name demo.plain (demo.get ∅) "nobody" w
    = (w, inl Http404).
Proof.
  intros w.
  assert (Honly : forall j d, schemas (db w) !! j = Some d ->
                    j = 1 /\ d = demo.descriptor demo.people_form).
  { intros j d Hlook.
    exact (demo_only_descriptor demo.people_form j d Hlook eq_refl). }
  split; [|split].
  - apply (proj1 (refine_and_import_by_name_delegates demo.plain
                    (demo.get ∅) "people" w)
             1 (demo.descriptor demo.people_form) eq_refl eq_refl).
    intros j d Hlook _. exact (proj1 (Honly j d Hlook)).
  - apply (proj1 (refine_and_import_by_name_delegates demo.plain
                    (demo.post demo.columns_form) "people" w)
             1 (demo.descriptor demo.people_form) eq_refl eq_refl).
    intros j d Hlook _. exact (proj1 (Honly j d Hlook)).
  - apply (proj2 (refine_and_import_by_name_delegates demo.plain
                    (demo.get ∅) "nobody" w) eq_refl).
    intros j d Hlook. destruct (Honly j d Hlook) as [_ ->]. discriminate.
Defined.

Lemma import_data_get_only_renders_witness :
  let w := demo.after_begin demo.people_form in
  import_data (demo.get ∅) 1 w =
    (w, inr (Some (TemplateResponse "import-data.html"
                     {[ "dynmodel" :=
                          CDynmodel (demo.descriptor demo.people_form) ]})))
  /\ import_data (demo.get ∅) 2 w = (w, inl Http404).
Proof.
  intros w.
  destruct (import_data_get_only_renders (demo.get ∅) 1 w eq_refl)
    as (Hget & _ & _).
  destruct (import_data_get_only_renders (demo.get ∅) 2 w eq_refl)
    as (_ & Hmissing & _).
  split; [exact (Hget _ eq_refl eq_refl)|exact (Hmissing eq_refl)].
Defined.

(** ** Further properties of the handlers *)

(** X1.  Without a logged-in user none of the four handlers runs its
    body: each answers with the redirect to the login page that Django
    builds for the request and leaves the store and the log as they were,
    also for an id or a name that matches no descriptor. *)
Theorem anonymous_requests_are_sent_to_login c request id n w :
  user_is_authenticated request = false ->
  let login := (w, inr (Some (LoginRedirect request))) in
  begin c request w = login /\
  refine_and_import c request id w = login /\
  refine_and_import_by_name c request n w = login /\
  import_data request id w = login.
Proof.
  intros Hanon login.
  unfold begin, refine_and_import, refine_and_import_by_name, import_data,
    login_required.
  rewrite Hanon. repeat split; reflexivity.
Qed.

Lemma anonymous_requests_are_sent_to_login_witness :
  let request := cases.anonymous (demo.post demo.people_form) in
  begin demo.plain request demo.empty_world
    = (demo.empty_world, inr (Some (LoginRedirect request))) /\
  refine_and_import demo.plain request 7 demo.empty_world
    = (demo.empty_world, inr (Some (LoginRedirect request))).
Proof.
  intros request.
  destruct (anonymous_requests_are_sent_to_login demo.plain request 7
              "nobody" demo.empty_world eq_refl) as (Hb & Hr & _ & _).
  split; [exact Hb|exact Hr].
Defined.

Section BeginMore.

Variable c : Collaborators.
Variable request : HttpRequest.
Variable w : World.
Hypothesis logged_in : user_is_authenticated request = true.

(** X2.  A logged-in request to [begin] whose method is neither GET nor
    POST gets no response at all: the handler falls off its end and
    returns [None], having called nothing. *)
Theorem begin_other_method_returns_nothing :
  method request <> "GET" -> method request <> "POST" ->
  begin c request w = (w, inr None).
Proof.
  intros Hget Hpost. unfold begin, login_required. rewrite logged_in.
  apply String.eqb_neq in Hget, Hpost. rewrite Hget, Hpost. reflexivity.
Qed.

Hypothesis is_post : method request = "POST".

(** X3.  On a POST to [begin] that selects the form service ([csv_url]
    absent or empty, [sd_api_key] given), the ids are converted before the
    factory is called and the conversion errors are not caught: a missing
    [sd_project_id] raises [TypeError], one on which [int] raises
    [ValueError] passes that error on, and so does a non-empty
    [sd_form_id] on which [int] raises [ValueError].  In each case no
    factory has been called and nothing is stored. *)
Theorem begin_post_screendoor_bad_ids :
  truthy (POST request !! "csv_url") = false ->
  truthy (POST request !! "sd_api_key") = true ->
  (POST request !! "sd_project_id" = None ->
   begin c request w = (w, inl TypeError)) /\
  (forall s,
     POST request !! "sd_project_id" = Some s -> int_of_text c s = None ->
     begin c request w = (w, inl ValueError)) /\
  (forall ps p s,
     POST request !! "sd_project_id" = Some ps ->
     int_of_text c ps = Some p ->
     POST request !! "sd_form_id" = Some s -> s <> "" ->
     int_of_text c s = None ->
     begin c request w = (w, inl ValueError)).
Proof.
  intros Hu Hk.
  assert (Hrun : forall e,
    (int (int_of_text c) (POST request !! "sd_project_id") = inl e \/
     exists p,
       int (int_of_text c) (POST request !! "sd_project_id") = inr p /\
       int_or_None (int_of_text c) (POST request !! "sd_form_id") = inl e) ->
    e = TypeError \/ e = ValueError ->
    begin c request w = (w, inl e)).
  { intros e He Hkind. unfold begin, login_required.
    rewrite logged_in, is_post. cbn [String.eqb Ascii.eqb Bool.eqb].
    unfold try_except_UniqueColumnError. rewrite Hu, Hk. cbn [andb].
    unfold bind, lift.
    destruct He as [He|(p & Hp & He)].
    - rewrite He. destruct Hkind as [-> | ->]; reflexivity.
    - rewrite Hp, He. destruct Hkind as [-> | ->]; reflexivity. }
  repeat apply conj.
  - intros Hnone. apply Hrun; [left|left; reflexivity].
    rewrite Hnone. reflexivity.
  - intros s Hsome Hbad. apply Hrun; [left|right; reflexivity].
    rewrite Hsome. unfold int. rewrite Hbad. reflexivity.
  - intros ps p s Hps Hp Hsome Hne Hbad.
    apply Hrun; [right|right; reflexivity].
    exists p. split; [rewrite Hps; unfold int; rewrite Hp; reflexivity|].
    rewrite Hsome. unfold int_or_None, truthy.
    apply String.eqb_neq in Hne. rewrite Hne. cbn [negb].
    unfold int. rewrite Hbad. reflexivity.
Qed.

(** X4.  Only the non-unique-column error is caught by [begin]: any other
    exception of the designated factory leaves the handler as it is, after
    that one factory call, with the store the factory left. *)
Theorem begin_post_other_exception_propagates ev f d' e :
  designates c request ev f ->
  f (db w) = (d', inl e) ->
  (forall m, e <> UniqueColumnError m) ->
  begin c request w = ({| db := d'; trace := trace w ++ [ev] |}, inl e).
Proof.
  intros D Hf Hother.
  rewrite (begin_post_designated c request w logged_in is_post ev f D), Hf.
  cbn [fst snd]. destruct e; try reflexivity.
  exfalso. exact (Hother _ eq_refl).
Qed.

(** X5.  A non-empty [csv_url] takes the form-service fields out of play:
    two POSTs to [begin] that agree on [csv_url], the auth code and
    [csv_name] have the same outcome, whatever [sd_api_key], [sd_name],
    [sd_project_id] and [sd_form_id] they carry, ids that are no numbers
    included. *)
Theorem begin_post_csv_url_ignores_form_service request' :
  user_is_authenticated request' = true ->
  method request' = "POST" ->
  truthy (POST request !! "csv_url") = true ->
  POST request' !! "csv_url" = POST request !! "csv_url" ->
  POST request' !! "csv_google_sheets_auth_code"
    = POST request !! "csv_google_sheets_auth_code" ->
  POST request' !! "csv_name" = POST request !! "csv_name" ->
  begin c request' w = begin c request w.
Proof.
  intros Hauth' Hpost' Hu Eu Ec En.
  unfold begin, login_required.
  rewrite logged_in, Hauth', is_post, Hpost'.
  cbn [String.eqb Ascii.eqb Bool.eqb].
  rewrite Eu, Ec, En, Hu. cbn [andb].
  destruct (truthy (POST request !! "csv_google_sheets_auth_code"));
    reflexivity.
Qed.

End BeginMore.


Lemma begin_other_method_returns_nothing_witness :
  begin demo.plain (cases.with_method "HEAD")
    (demo.after_begin demo.people_form)
  = (demo.after_begin demo.people_form, inr None).
Proof.
  exact (begin_other_method_returns_nothing demo.plain
           (cases.with_method "HEAD") (demo.after_begin demo.people_form)
           eq_refl ltac:(discriminate) ltac:(discriminate)).
Defined.

Lemma begin_post_screendoor_bad_ids_witness :
  begin demo.plain (demo.post cases.no_project_form) demo.empty_world
    = (demo.empty_world, inl TypeError) /\
  begin demo.plain (demo.post cases.bad_project_form) demo.empty_world
    = (demo.empty_world, inl ValueError) /\
  begin demo.plain (demo.post cases.bad_form_id_form) demo.empty_world
    = (demo.empty_world, inl ValueError).
Proof.
  split; [|split].
  - exact (proj1 (begin_post_screendoor_bad_ids demo.plain
                    (demo.post cases.no_project_form) demo.empty_world
                    eq_refl eq_refl eq_refl eq_refl) eq_refl).
  - exact (proj1 (proj2 (begin_post_screendoor_bad_ids demo.plain
                    (demo.post cases.bad_project_form) demo.empty_world
                    eq_refl eq_refl eq_refl eq_refl))
             "twelve" eq_refl eq_refl).
  - exact (proj2 (proj2 (begin_post_screendoor_bad_ids demo.plain
                    (demo.post cases.bad_form_id_form) demo.empty_world
                    eq_refl eq_refl eq_refl eq_refl))
             "12" 12 "x" eq_refl eq_refl eq_refl ltac:(discriminate)
             eq_refl).
Defined.

Lemma begin_post_other_exception_propagates_witness :
  begin demo.plain (demo.post cases.gone_form) demo.empty_world
  = ({| db := db demo.empty_world;
        trace := [EvFromCsvUrl (Some "gone")
                    (Some "http://example.org/gone.csv") None] |},
     inl (ExternalError "404")).
Proof.
  exact (begin_post_other_exception_propagates demo.plain
           (demo.post cases.gone_form) demo.empty_world eq_refl eq_refl
           _ _ (db demo.empty_world) (ExternalError "404")
           (designates_csv_url demo.plain (demo.post cases.gone_form)
              _ _ eq_refl eq_refl eq_refl eq_refl)
           eq_refl ltac:(discriminate)).
Defined.

Lemma begin_post_csv_url_ignores_form_service_witness :
  begin demo.plain (demo.post cases.both_form) demo.empty_world
  = begin demo.plain (demo.post demo.people_form) demo.empty_world.
Proof.
  exact (begin_post_csv_url_ignores_form_service demo.plain
           (demo.post demo.people_form) demo.empty_world eq_refl eq_refl
           (demo.post cases.both_form)
           eq_refl eq_refl eq_refl eq_refl eq_refl eq_refl).
Defined.

(** The calls of a fetch are fetch calls: none saves or imports. *)
Lemma fetch_source_data_calls c d w :
  exists calls,
    (fetch_source_data c d w).1
      = {| db := db w; trace := trace w ++ calls |} /\
    saves calls = [] /\ List.filter is_import calls = [].
Proof.
  unfold fetch_source_data.
  destruct (truthy (csv_url d) && truthy (csv_google_refresh_token d)).
  - unfold call, bind, emit, getitem, ret, raise. cbn.
    destruct (get_access_data c _ _ _) as [e|data]; cbn.
    + eexists [_]. repeat split.
    + destruct (data !! "access_token") as [token|]; cbn.
      * eexists [_; _]. rewrite <- app_assoc. repeat split.
      * eexists [_]. repeat split.
  - destruct (truthy (csv_url d)).
    + unfold call, bind, emit. cbn. eexists [_]. repeat split.
    + destruct (truthy (sd_api_key d)).
      * unfold call, bind, emit. cbn. eexists [_]. repeat split.
      * unfold raise. cbn. exists []. rewrite app_nil_r.
        destruct w. repeat split.
Qed.

Section RefineMore.

Variable c : Collaborators.
Variable request : HttpRequest.
Variable id : Z.
Variable w : World.
Hypothesis logged_in : user_is_authenticated request = true.

(** X7.  A logged-in request to [refine_and_import] with an id that
    resolves to no descriptor is answered "not found" whatever its method
    and whatever it submits: the lookup comes first, so nothing is
    validated, saved, fetched or imported. *)
Theorem refine_unknown_id_is_not_found :
  schemas (db w) !! id = None ->
  refine_and_import c request id w = (w, inl Http404).
Proof.
  intros Hnone. unfold refine_and_import, login_required.
  rewrite logged_in. unfold bind, get_object_or_404. rewrite Hnone.
  reflexivity.
Qed.

Variable dm : DynamicModel.
Hypothesis resolves : schemas (db w) !! id = Some dm.

(** X8.  A logged-in GET to [refine_and_import] with an id that resolves
    returns the refine page with the descriptor and a form filled with the
    descriptor's current columns, not yet validated, and changes
    nothing. *)
Theorem refine_get_prefills_form :
  method request = "GET" ->
  exists form,
    refine_and_import c request id w =
      (w, inr (Some (TemplateResponse "refine-and-import.html"
                       {[ "form" := CForm form;
                          "dynmodel" := CDynmodel dm ]}))) /\
    form_data form = InitialColumns (columns dm) /\
    form_errors form = None.
Proof.
  intros Hget.
  exists {| form_data := InitialColumns (columns dm); form_errors := None |}.
  split; [|split; reflexivity].
  unfold refine_and_import, login_required. rewrite logged_in.
  unfold bind, get_object_or_404. rewrite resolves, Hget. reflexivity.
Qed.

(** X9.  A logged-in request to [refine_and_import] with an id that
    resolves and a method that is neither GET nor POST gets no response:
    the handler falls off its end and returns [None], and the store and
    the log are untouched. *)
Theorem refine_other_method_returns_nothing :
  method request <> "GET" -> method request <> "POST" ->
  refine_and_import c request id w = (w, inr None).
Proof.
  intros Hget Hpost. apply String.eqb_neq in Hget, Hpost.
  unfold refine_and_import, login_required. rewrite logged_in.
  unfold bind, get_object_or_404. rewrite resolves, Hget, Hpost.
  reflexivity.
Qed.

End RefineMore.

(** X10.  A GET never writes: whoever sends it and whatever id it names,
    [begin], [refine_and_import] and [import_data] leave the store and
    the log exactly as they were. *)
Theorem get_requests_change_nothing c request id w :
  method request = "GET" ->
  (begin c request w).1 = w /\
  (refine_and_import c request id w).1 = w /\
  (import_data request id w).1 = w.
Proof.
  intros Hget.
  unfold begin, refine_and_import, import_data, login_required.
  destruct (user_is_authenticated request); [|repeat split; reflexivity].
  rewrite Hget. cbn [String.eqb Ascii.eqb Bool.eqb].
  unfold bind, objects_count, get_object_or_404, ret.
  repeat apply conj.
  - destruct (truthy (GET request !! "addnew")); [reflexivity|].
    destruct (truthy_int _); reflexivity.
  - destruct (schemas (db w) !! id); reflexivity.
  - destruct (schemas (db w) !! id); reflexivity.
Qed.

Lemma saves_app t1 t2 : saves (t1 ++ t2) = (saves t1 ++ saves t2)%list.
Proof. apply List.filter_app. Qed.

(** [save] keeps the rows of every table. *)
Lemma table_rows_saved d w model :
  table_rows (db (saved d w)) model = table_rows (db w) model.
Proof.
  unfold saved, save, call_db, bind, emit, table_rows. cbn.
  destruct (decide (models.id d = model)) as [->|Hne].
  - rewrite lookup_insert_eq. reflexivity.
  - rewrite lookup_insert_ne by exact Hne. reflexivity.
Qed.

Section RefinePostMore.

Variable c : Collaborators.
Variable request : HttpRequest.
Variable id : Z.
Variable w : World.
Variable dm : DynamicModel.
Hypothesis logged_in : user_is_authenticated request = true.
Hypothesis is_post : method request = "POST".
Hypothesis resolves : schemas (db w) !! id = Some dm.
Variable cols : Columns.
Hypothesis is_clean : full_clean c (POST request) = ([], Some cols).

(** X11.  A POST to [refine_and_import] with a valid column
    specification saves the descriptor with the submitted columns before
    anything is fetched, and saves exactly once: however the fetch and the
    import end (data, row errors or an exception), the descriptor with
    the new columns is the persisted one afterwards. *)
Theorem refine_post_saves_columns_once :
  let d := set_columns cols dm in
  let out := refine_and_import c request id w in
  schemas (db out.1) !! models.id d = Some d /\
  saves (trace out.1) = (saves (trace w) ++ [EvSave d])%list.
Proof.
  intros d out. subst out.
  pose proof (refine_post_valid_outcome c request id w dm logged_in is_post
                resolves cols is_clean) as Hout.
  cbv zeta in Hout. fold d in Hout. rewrite Hout. clear Hout.
  destruct (fetch_source_data_calls c d (saved d w))
    as (calls & Hw1 & Hsaves & _).
  assert (Hs0 : schemas (db (saved d w)) !! models.id d = Some d).
  { unfold saved, save, call_db, bind, emit. cbn. apply lookup_insert_eq. }
  assert (Ht0 : saves (trace (saved d w)) = (saves (trace w) ++ [EvSave d])%list).
  { unfold saved, save, call_db, bind, emit. cbn. apply saves_app. }
  destruct (fetch_source_data c d (saved d w)) as [w1 r].
  cbn [fst] in Hw1. subst w1.
  assert (Ht1 : saves (trace (saved d w) ++ calls)
                = (saves (trace w) ++ [EvSave d])%list).
  { rewrite saves_app, Hsaves, app_nil_r. exact Ht0. }
  destruct r as [e|csv]; cbn [fst db trace]; [split; assumption|].
  destruct (import_records c csv d _) as [rows' [e|errors]];
    cbn [fst snd db trace schemas].
  - split; [exact Hs0|]. rewrite saves_app, Ht1. cbn. apply app_nil_r.
  - split; [exact Hs0|]. rewrite saves_app, saves_app, Ht1. cbn.
    rewrite !app_nil_r. reflexivity.
Qed.


(** X13.  For a descriptor with [csv_url] and a refresh token, a refused
    OAuth exchange and access data without ["access_token"] both end the
    request with an exception (the client's own, or [KeyError]) right
    after the exchange: the sheet is not fetched and nothing is
    imported. *)
Theorem refine_post_oauth_failures :
  let d := set_columns cols dm in
  let client_id := get_setting c "GOOGLE_CLIENT_ID" in
  let client_secret := get_setting c "GOOGLE_CLIENT_SECRET" in
  let exchange :=
    get_access_data c client_id client_secret (csv_google_refresh_token dm) in
  let after :=
    {| db := db (saved d w);
       trace := trace (saved d w) ++
                [EvGetAccessData client_id client_secret
                   (csv_google_refresh_token dm)] |} in
  truthy (csv_url dm) = true ->
  truthy (csv_google_refresh_token dm) = true ->
  (forall e, exchange = inl e ->
     refine_and_import c request id w = (after, inl e)) /\
  (forall data, exchange = inr data -> data !! "access_token" = None ->
     refine_and_import c request id w
     = (after, inl (KeyError "access_token"))).
Proof.
  intros d client_id client_secret exchange after Hu Ht.
  pose proof (refine_post_valid_outcome c request id w dm logged_in is_post
                resolves cols is_clean) as Hout.
  cbv zeta in Hout. fold d in Hout.
  assert (Hfetch : fetch_source_data c d (saved d w) =
    match exchange with
    | inl e => (after, inl e)
    | inr data =>
        match data !! "access_token" with
        | None => (after, inl (KeyError "access_token"))
        | Some token =>
            ({| db := db after;
                trace := trace after
                         ++ [EvGetCsvFromUrl token (csv_url dm)] |},
             get_csv_from_url c token (csv_url dm))
        end
    end).
  { unfold fetch_source_data.
    cbn [csv_url csv_google_refresh_token d set_columns].
    rewrite Hu, Ht. cbn [andb]. fold client_id client_secret exchange.
    unfold call, bind, emit. destruct exchange as [e|data]; [reflexivity|].
    cbv beta iota. unfold getitem.
    destruct (data !! "access_token"); reflexivity. }
  split.
  - intros e He. rewrite Hout, Hfetch, He. reflexivity.
  - intros data Hd Hnone. rewrite Hout, Hfetch, Hd, Hnone. reflexivity.
Qed.

(** X14.  After the importer has returned, its error list is written to
    the error log in every case, the empty list included; when the
    importer raises instead, the exception is passed on and nothing is
    logged. *)
Theorem refine_post_logs_every_import csv w1 rows' :
  let d := set_columns cols dm in
  let before := table_rows (db w) (models.id d) in
  fetch_source_data c d (saved d w) = (w1, inr csv) ->
  (forall errors,
     import_records c csv d before = (rows', inr errors) ->
     trace (refine_and_import c request id w).1 =
       (trace w1 ++ [EvImportRecords csv (models.id d); EvLogError errors])%list) /\
  (forall e,
     import_records c csv d before = (rows', inl e) ->
     (refine_and_import c request id w).2 = inl e /\
     trace (refine_and_import c request id w).1 =
       (trace w1 ++ [EvImportRecords csv (models.id d)])%list).
Proof.
  intros d before Hfetch.
  pose proof (refine_post_valid_outcome c request id w dm logged_in is_post
                resolves cols is_clean) as Hout.
  cbv zeta in Hout. fold d in Hout. rewrite Hfetch in Hout.
  destruct (fetch_source_data_calls c d (saved d w)) as (calls & Hw1 & _).
  rewrite Hfetch in Hw1. cbn [fst] in Hw1.
  assert (Hrows : table_rows (db w1) (models.id d) = before).
  { rewrite Hw1. cbn [db]. apply table_rows_saved. }
  rewrite Hrows in Hout. split.
  - intros errors Himport. rewrite Himport in Hout. rewrite Hout.
    cbn [fst snd trace]. rewrite <- app_assoc. reflexivity.
  - intros e Himport. rewrite Himport in Hout. rewrite Hout.
    split; reflexivity.
Qed.

End RefinePostMore.

(** X15.  The redirect [begin] returns leads to the descriptor just
    created: when the designated factory returns a descriptor it has
    persisted under its id, a logged-in GET to [refine_and_import] with
    the id of the redirect finds that descriptor and shows the form
    filled with the columns the factory inferred. *)
Theorem begin_redirect_resolves c request request' w ev f d' dm :
  user_is_authenticated request = true ->
  method request = "POST" ->
  designates c request ev f ->
  f (db w) = (d', inr dm) ->
  schemas d' !! models.id dm = Some dm ->
  user_is_authenticated request' = true ->
  method request' = "GET" ->
  exists w' i,
    begin c request w =
      (w', inr (Some (HttpResponseRedirect "csv_models:refine-and-import"
                        [i]))) /\
    refine_and_import c request' i w' =
      (w', inr (Some (TemplateResponse "refine-and-import.html"
                        {[ "form" :=
                             CForm {| form_data := InitialColumns (columns dm);
                                      form_errors := None |};
                           "dynmodel" := CDynmodel dm ]}))).
Proof.
  intros Hauth Hpost D Hf Hstored Hauth' Hget.
  exists {| db := d'; trace := trace w ++ [ev] |}, (models.id dm).
  rewrite (begin_post_designated c request w Hauth Hpost ev f D), Hf.
  cbn [fst snd]. split; [reflexivity|].
  unfold refine_and_import, login_required. rewrite Hauth'.
  unfold bind, get_object_or_404. cbn [db]. rewrite Hstored, Hget.
  reflexivity.
Qed.

Lemma begin_redirect_resolves_witness :
  exists w' i,
    begin demo.plain (demo.post demo.people_form) demo.empty_world =
      (w', inr (Some (HttpResponseRedirect "csv_models:refine-and-import"
                        [i]))) /\
    refine_and_import demo.plain (demo.get ∅) i w' =
      (w', inr (Some (TemplateResponse "refine-and-import.html"
                        {[ "form" :=
                             CForm {| form_data :=
                                        InitialColumns demo.name_age;
                                      form_errors := None |};
                           "dynmodel" :=
                             CDynmodel (demo.descriptor demo.people_form) ]}))).
Proof.
  exact (begin_redirect_resolves demo.plain (demo.post demo.people_form)
           (demo.get ∅) demo.empty_world _ _
           (db (demo.after_begin demo.people_form))
           (demo.descriptor demo.people_form)
           eq_refl eq_refl
           (designates_csv_url demo.plain (demo.post demo.people_form)
              _ _ eq_refl eq_refl eq_refl eq_refl)
           eq_refl eq_refl eq_refl eq_refl).
Defined.

Lemma refine_unknown_id_is_not_found_witness :
  refine_and_import demo.plain (demo.post demo.columns_form) 7
    (demo.after_begin demo.people_form)
  = (demo.after_begin demo.people_form, inl Http404).
Proof.
  exact (refine_unknown_id_is_not_found demo.plain
           (demo.post demo.columns_form) 7
           (demo.after_begin demo.people_form) eq_refl eq_refl).
Defined.

Lemma refine_get_prefills_form_witness :
  let w := demo.after_begin demo.people_form in
  exists form,
    refine_and_import demo.plain (demo.get ∅) 1 w =
      (w, inr (Some (TemplateResponse "refine-and-import.html"
                       {[ "form" := CForm form;
                          "dynmodel" :=
                            CDynmodel (demo.descriptor demo.people_form) ]})))
    /\ form_data form = InitialColumns demo.name_age
    /\ form_errors form = None.
Proof.
  exact (refine_get_prefills_form demo.plain (demo.get ∅) 1
           (demo.after_begin demo.people_form) eq_refl
           (demo.descriptor demo.people_form) eq_refl eq_refl).
Defined.

Lemma refine_other_method_returns_nothing_witness :
  let w := demo.after_begin demo.people_form in
  refine_and_import demo.plain (cases.with_method "PUT") 1 w
  = (w, inr None).
Proof.
  exact (refine_other_method_returns_nothing demo.plain
           (cases.with_method "PUT") 1 (demo.after_begin demo.people_form)
           eq_refl (demo.descriptor demo.people_form) eq_refl
           ltac:(discriminate) ltac:(discriminate)).
Defined.

Lemma get_requests_change_nothing_witness :
  let w := demo.after_begin demo.people_form in
  (begin demo.plain (demo.get ∅) w).1 = w /\
  (refine_and_import demo.plain (demo.get ∅) 1 w).1 = w /\
  (import_data (cases.anonymous (demo.get ∅)) 7 w).1 = w.
Proof.
  intros w.
  destruct (get_requests_change_nothing demo.plain (demo.get ∅) 1 w eq_refl)
    as (Hb & Hr & _).
  destruct (get_requests_change_nothing demo.plain
              (cases.anonymous (demo.get ∅)) 7 w eq_refl) as (_ & _ & Hi).
  split; [exact Hb|split; [exact Hr|exact Hi]].
Defined.

Lemma refine_post_saves_columns_once_witness :
  let out := refine_and_import demo.plain (demo.post demo.columns_form) 1
               cases.gone_world in
  out.2 = inl (ExternalError "404") /\
  schemas (db out.1) !! 1 = Some (set_columns demo.name_age cases.gone) /\
  saves (trace out.1) = [EvSave (set_columns demo.name_age cases.gone)].
Proof.
  intros out. split; [reflexivity|].
  exact (refine_post_saves_columns_once demo.plain
           (demo.post demo.columns_form) 1 cases.gone_world cases.gone
           eq_refl eq_refl eq_refl demo.name_age eq_refl).
Defined.


Lemma refine_post_oauth_failures_witness :
  let w := demo.after_begin demo.sheet_form in
  (refine_and_import cases.refused (demo.post demo.columns_form) 1 w).2
    = inl (ExternalError "invalid_grant") /\
  (refine_and_import cases.tokenless (demo.post demo.columns_form) 1 w).2
    = inl (KeyError "access_token") /\
  fetches (trace (refine_and_import cases.tokenless
                    (demo.post demo.columns_form) 1 w).1)
    = [EvGetAccessData None None (Some "refresh-4/code")].
Proof.
  intros w.
  destruct (refine_post_oauth_failures cases.refused
              (demo.post demo.columns_form) 1 w
              (demo.descriptor demo.sheet_form)
              eq_refl eq_refl eq_refl demo.name_age eq_refl
              eq_refl eq_refl) as (Hrefused & _).
  destruct (refine_post_oauth_failures cases.tokenless
              (demo.post demo.columns_form) 1 w
              (demo.descriptor demo.sheet_form)
              eq_refl eq_refl eq_refl demo.name_age eq_refl
              eq_refl eq_refl) as (_ & Htokenless).
  rewrite (Hrefused _ eq_refl).
  rewrite (Htokenless {[ "expires_in" := "3599" ]} eq_refl eq_refl).
  repeat split.
Defined.

Lemma refine_post_logs_every_import_witness :
  let w := demo.after_begin demo.people_form in
  let d := demo.descriptor demo.people_form in
  let w1 := (fetch_source_data demo.plain d (saved d w)).1 in
  trace (refine_and_import demo.plain (demo.post demo.columns_form) 1 w).1
    = (trace w1 ++ [EvImportRecords demo.people 1; EvLogError []])%list /\
  (refine_and_import cases.locked (demo.post demo.columns_form) 1 w).2
    = inl (ExternalError "database is locked").
Proof.
  intros w d w1. split.
  - exact (proj1 (refine_post_logs_every_import demo.plain
                    (demo.post demo.columns_form) 1 w d
                    eq_refl eq_refl eq_refl demo.name_age eq_refl
                    demo.people w1 [["Ada"; "36"]; ["Alan"; "41"]] eq_refl)
             [] eq_refl).
  - exact (proj1 (proj2 (refine_post_logs_every_import cases.locked
                    (demo.post demo.columns_form) 1 w d
                    eq_refl eq_refl eq_refl demo.name_age eq_refl
                    demo.people
                    (fetch_source_data cases.locked d (saved d w)).1 []
                    eq_refl)
             (ExternalError "database is locked") eq_refl)).
Defined.
